(** * Announcements router of the High School Management System API

    A shallow embedding of [src/backend/routers/announcements.py] and the
    properties its specification states about it.

    The router is a thin layer over two document collections.  The embedding
    keeps that shape:

    - Python values are the three kinds the router handles ([None], [str],
      [ObjectId]); a Python [dict] and a stored document are both a
      [gmap string value], so that "field absent" ([d !! k = None]) and
      "field present and null" ([d !! k = Some VNone]) stay apart;
    - a collection is the list of its documents in natural order; the few
      collection methods the router calls ([find], [sort], [find_one],
      [insert_one], [update_one], [delete_one]) are functions on that list,
      and filters and update documents are small syntax trees that mirror
      the dictionaries written in the source;
    - the endpoints run in a state-and-exception monad over the two
      collections: a raised [HTTPException] (or [KeyError]) is an outcome,
      paired with the store as it is at that moment;
    - the clock reading and the identifier drawn by the driver on insertion
      are arguments of the endpoint that uses them;
    - [str.strip], [datetime.fromisoformat] and the [ObjectId] constructor
      belong to libraries, not to the router: the endpoints take them as
      parameters (section variables) and every theorem holds for any choice
      of them.  Executable instances are given for the examples. *)

From Stdlib Require Import String Ascii ZArith NArith List Sorting.Sorted Permutation Lia.
From Stdlib Require OrderedTypeEx.
From stdpp Require Import base option gmap strings list fin_maps.

Open Scope string_scope.

(** ** Python strings *)

Module Py.

(** [str.isspace] on one character, for ASCII text: TAB, LF, VT, FF, CR,
    the four separators FS, GS, RS, US, and the space. *)
Definition isspace (c : ascii) : bool :=
  let n := nat_of_ascii c in
  ((9 <=? n)%nat && (n <=? 13)%nat) || ((28 <=? n)%nat && (n <=? 32)%nat).

Fixpoint lstrip (s : string) : string :=
  match s with
  | EmptyString => EmptyString
  | String c s' => if isspace c then lstrip s' else s
  end.

Fixpoint rstrip (s : string) : string :=
  match s with
  | EmptyString => EmptyString
  | String c s' =>
      match rstrip s' with
      | EmptyString => if isspace c then EmptyString else String c EmptyString
      | r => String c r
      end
  end.

(** [s.strip()] for text in the ASCII range.  The endpoints take
    [str.strip] as a parameter; this instance serves the examples. *)
Definition strip (s : string) : string := rstrip (lstrip s).

(** [s.replace(old, new)] for a one-character [old]. *)
Fixpoint replace (old : ascii) (new : string) (s : string) : string :=
  match s with
  | EmptyString => EmptyString
  | String c s' =>
      if Ascii.eqb c old then new ++ replace old new s'
      else String c (replace old new s')
  end.

(** Truth value of a [str]: [not s] holds for the empty string only. *)
Definition truthy (s : string) : bool := negb (String.eqb s "").

(** Truth value of an optional [str] argument ([start_date: str = None]). *)
Definition truthy_opt (s : option string) : bool :=
  match s with
  | None => false
  | Some s => truthy s
  end.

End Py.

(** ** BSON values *)

(** An [ObjectId] is a 12-byte value, held as the number its bytes spell. *)
Inductive ObjectId := Oid (n : N).

Definition hex_digit (n : N) : ascii :=
  match n with
  | 0 => "0" | 1 => "1" | 2 => "2" | 3 => "3" | 4 => "4" | 5 => "5"
  | 6 => "6" | 7 => "7" | 8 => "8" | 9 => "9" | 10 => "a" | 11 => "b"
  | 12 => "c" | 13 => "d" | 14 => "e" | _ => "f"
  end%N%char.

Fixpoint hexlify (digits : nat) (n : N) (acc : string) : string :=
  match digits with
  | O => acc
  | S k => hexlify k (n / 16)%N (String (hex_digit (n mod 16)%N) acc)
  end.

(** [str(oid)]: the 24 lower-case hexadecimal digits of the 12 bytes. *)
Definition ObjectId_str (o : ObjectId) : string :=
  match o with Oid n => hexlify 24 n "" end.

Inductive value :=
  | VNone
  | VStr (s : string)
  | VObjectId (o : ObjectId).

#[global] Instance ObjectId_eq_dec : EqDecision ObjectId.
Proof. solve_decision. Defined.

#[global] Instance value_eq_dec : EqDecision value.
Proof. solve_decision. Defined.

Abbreviation document := (gmap string value).

(** [str(v)] *)
Definition py_str (v : value) : string :=
  match v with
  | VNone => "None"
  | VStr s => s
  | VObjectId o => ObjectId_str o
  end.

(** ** The document store *)

Module Mongo.

(** Rank of a value's type in the BSON comparison order
    (Null < String < ObjectId). *)
Definition type_rank (v : value) : N :=
  match v with
  | VNone => 2
  | VStr _ => 4
  | VObjectId _ => 8
  end.

(** The BSON comparison order: by type first, then within the type; strings
    compare byte by byte. *)
Definition compare (a b : value) : comparison :=
  match a, b with
  | VNone, VNone => Eq
  | VStr s, VStr t => String.compare s t
  | VObjectId (Oid m), VObjectId (Oid n) => N.compare m n
  | _, _ => N.compare (type_rank a) (type_rank b)
  end.

Definition leb (a b : value) : bool :=
  match compare a b with Gt => false | _ => true end.

(** A condition on one field: a bare value stands for equality,
    [{"$exists": b}], [{"$lte": v}], [{"$gte": v}]. *)
Inductive cond :=
  | Is (v : value)
  | Exists (b : bool)
  | Lte (v : value)
  | Gte (v : value).

(** A filter document: one field with its condition, [{"$or": [...]}], and
    the conjunction that a dictionary of several keys stands for ([All []]
    is the empty filter). *)
#[warnings="-register-all"]
Inductive query :=
  | Field (name : string) (c : cond)
  | Or (qs : list query)
  | All (qs : list query).

(** Comparison operators read a missing field as null and hold only between
    values of one type. *)
Definition cond_holds (c : cond) (field : option value) : bool :=
  match c with
  | Is v => bool_decide (default VNone field = v)
  | Exists b => Bool.eqb (bool_decide (is_Some field)) b
  | Lte v =>
      let w := default VNone field in
      (type_rank w =? type_rank v)%N && leb w v
  | Gte v =>
      let w := default VNone field in
      (type_rank w =? type_rank v)%N && leb v w
  end.

Fixpoint matches (q : query) (d : document) : bool :=
  match q with
  | Field name c => cond_holds c (d !! name)
  | Or qs => existsb (fun q' => matches q' d) qs
  | All qs => forallb (fun q' => matches q' d) qs
  end.

(** [collection.find(q)]: the matching documents, in natural order. *)
Definition find (q : query) (c : list document) : list document :=
  List.filter (matches q) c.

(** [collection.find_one(q)] *)
Definition find_one (q : query) (c : list document) : option document :=
  head (find q c).

(** The sort key of a document: a missing field sorts as null. *)
Definition sort_key (field : string) (d : document) : value :=
  default VNone (d !! field).

(** [cursor.sort(field, pymongo.DESCENDING)]: greater keys first, documents
    with equal keys in the order the cursor had them. *)
Fixpoint insert_desc (field : string) (d : document) (l : list document)
  : list document :=
  match l with
  | [] => [d]
  | e :: l' =>
      if leb (sort_key field e) (sort_key field d) then d :: l
      else e :: insert_desc field d l'
  end.

Fixpoint sort_desc (field : string) (l : list document) : list document :=
  match l with
  | [] => []
  | d :: l' => insert_desc field d (sort_desc field l')
  end.

(** The two update operators the router uses: [{"$set": fields}] and
    [{"$unset": fields}] (the values of the latter are ignored). *)
Inductive update :=
  | Set_ (fields : document)
  | Unset (fields : document).

Definition apply_update (u : update) (d : document) : document :=
  match u with
  | Set_ fields => fields ∪ d
  | Unset fields => d ∖ fields
  end.

(** [collection.update_one(q, u)]: the first matching document is updated
    in place. *)
Fixpoint update_one (q : query) (u : update) (c : list document)
  : list document :=
  match c with
  | [] => []
  | d :: c' =>
      if matches q d then apply_update u d :: c'
      else d :: update_one q u c'
  end.

(** [collection.delete_one(q)]: the first matching document is removed; the
    result carries [deleted_count]. *)
Fixpoint delete_one (q : query) (c : list document) : nat * list document :=
  match c with
  | [] => (O, [])
  | d :: c' =>
      if matches q d then (1%nat, c')
      else let '(n, c'') := delete_one q c' in (n, d :: c'')
  end.

(** The driver gives a document without [_id] a newly drawn [ObjectId]. *)
Definition with_id (fresh : ObjectId) (d : document) : document :=
  match d !! "_id" with
  | Some _ => d
  | None => <["_id" := VObjectId fresh]> d
  end.

(** [collection.insert_one(d)]: [_id] is a unique key; on success the
    document is stored last and its [_id] is the [inserted_id]. *)
Definition insert_one (fresh : ObjectId) (d : document) (c : list document)
  : option (value * list document) :=
  let d' := with_id fresh d in
  let id := default VNone (d' !! "_id") in
  match find_one (Field "_id" (Is id)) c with
  | Some _ => None
  | None => Some (id, (c ++ [d'])%list)
  end.

End Mongo.

(** ** Library functions the router calls

    Executable instances of [datetime.fromisoformat] and of the [ObjectId]
    constructor, which the endpoints are parametric in (as they are in
    [str.strip], whose instance is [Py.strip]).  They serve the examples;
    no theorem on the endpoints depends on them. *)

Module Lib.

Definition digit (c : ascii) : option N :=
  let n := N_of_ascii c in
  if ((48 <=? n) && (n <=? 57))%N then Some (n - 48)%N else None.

Definition hex_value (c : ascii) : option N :=
  let n := N_of_ascii c in
  if ((48 <=? n) && (n <=? 57))%N then Some (n - 48)%N
  else if ((97 <=? n) && (n <=? 102))%N then Some (n - 87)%N
  else if ((65 <=? n) && (n <=? 70))%N then Some (n - 55)%N
  else None.

Fixpoint number (base : N) (value_of : ascii -> option N) (acc : N)
  (l : list ascii) : option N :=
  match l with
  | [] => Some acc
  | c :: l' =>
      match value_of c with
      | Some v => number base value_of (base * acc + v)%N l'
      | None => None
      end
  end.

(** [ObjectId(s)] for a [str]: [s] has to be 24 hexadecimal digits. *)
Definition ObjectId_of_str (s : string) : option ObjectId :=
  if (String.length s =? 24)%nat
  then Oid <$> number 16 hex_value 0 (list_ascii_of_string s)
  else None.

Record datetime := {
  year : N; month : N; day : N;
  hour : N; minute : N; second : N; microsecond : N;
  utcoffset : option Z
}.

Definition is_leap (y : N) : bool :=
  ((y mod 4 =? 0) && (negb (y mod 100 =? 0) || (y mod 400 =? 0)))%N.

Definition days_in_month (y m : N) : N :=
  match m with
  | 2 => if is_leap y then 29 else 28
  | 4 | 6 | 9 | 11 => 30
  | _ => 31
  end%N.

(** [HH[:MM[:SS[.fff[fff]]]]] *)
Definition parse_hh_mm_ss_ff (l : list ascii) : option (N * N * N * N) :=
  match l with
  | [h1; h2] =>
      h ← number 10 digit 0 [h1; h2]; Some (h, 0, 0, 0)%N
  | [h1; h2; ":"; m1; m2]%char =>
      h ← number 10 digit 0 [h1; h2];
      m ← number 10 digit 0 [m1; m2]; Some (h, m, 0, 0)%N
  | (h1 :: h2 :: ":" :: m1 :: m2 :: ":" :: s1 :: s2 :: frac)%char =>
      h ← number 10 digit 0 [h1; h2];
      m ← number 10 digit 0 [m1; m2];
      s ← number 10 digit 0 [s1; s2];
      match frac with
      | [] => Some (h, m, s, 0%N)
      | "."%char :: f =>
          us ← number 10 digit 0 f;
          if (length f =? 3)%nat then Some (h, m, s, 1000 * us)%N
          else if (length f =? 6)%nat then Some (h, m, s, us)
          else None
      | _ => None
      end
  | _ => None
  end.

(** Splits a time string at its first sign, when it has one. *)
Fixpoint split_offset (l : list ascii)
  : list ascii * option (bool * list ascii) :=
  match l with
  | [] => ([], None)
  | c :: l' =>
      if Ascii.eqb c "+" then ([], Some (false, l'))
      else if Ascii.eqb c "-" then ([], Some (true, l'))
      else let '(t, o) := split_offset l' in (c :: t, o)
  end.

Definition parse_offset (o : option (bool * list ascii))
  : option (option Z) :=
  match o with
  | None => Some None
  | Some (negative, l) =>
      if negb (bool_decide (length l ∈ [5; 8; 15]%nat)) then None else
      '(h, m, s, us) ← parse_hh_mm_ss_ff l;
      let secs := Z.of_N (3600 * h + 60 * m + s) in
      if (secs <? 86400)%Z
      then Some (Some (if negative then - secs else secs)%Z)
      else None
  end.

(** [datetime.fromisoformat(s)] as Python 3.7 to 3.10 document it:
    [YYYY-MM-DD[*HH[:MM[:SS[.fff[fff]]]][+HH:MM[:SS[.ffffff]]]]]. *)
Definition fromisoformat (s : string) : option datetime :=
  match list_ascii_of_string s with
  | (y1 :: y2 :: y3 :: y4 :: "-" :: m1 :: m2 :: "-" :: d1 :: d2 :: rest)%char =>
      y ← number 10 digit 0 [y1; y2; y3; y4];
      m ← number 10 digit 0 [m1; m2];
      d ← number 10 digit 0 [d1; d2];
      if negb ((1 <=? y) && (1 <=? m) && (m <=? 12)
               && (1 <=? d) && (d <=? days_in_month y m))%N
      then None else
      match rest with
      | [] => Some (Build_datetime y m d 0 0 0 0 None)
      | _ :: time =>
          let '(t, o) := split_offset time in
          '(hh, mi, ss, us) ← parse_hh_mm_ss_ff t;
          off ← parse_offset o;
          if ((hh <? 24) && (mi <? 60) && (ss <? 60))%N
          then Some (Build_datetime y m d hh mi ss us off)
          else None
      end
  | _ => None
  end.

End Lib.

(** ** Exceptions and the endpoint monad *)

Inductive exn :=
  | HTTPException (status_code : Z) (detail : string)
  | KeyError (key : string)
  | DuplicateKeyError.

Inductive outcome (A : Type) :=
  | Returns (a : A)
  | Raises (e : exn).
Arguments Returns {A} a.
Arguments Raises {A} e.

(** The two collections [database.py] exports. *)
Record database := {
  announcements_collection : list document;
  teachers_collection : list document
}.

Definition M (A : Type) : Type := database -> outcome A * database.

#[global] Instance M_ret : MRet M := fun A a db => (Returns a, db).

#[global] Instance M_bind : MBind M := fun A B f m db =>
  match m db with
  | (Returns a, db') => f a db'
  | (Raises e, db') => (Raises e, db')
  end.

Definition raise {A : Type} (e : exn) : M A := fun db => (Raises e, db).

Definition announcements : M (list document) :=
  fun db => (Returns (announcements_collection db), db).

Definition teachers : M (list document) :=
  fun db => (Returns (teachers_collection db), db).

(** The store after a write to the announcements collection. *)
Definition with_announcements (c : list document) (db : database)
  : database :=
  {| announcements_collection := c;
     teachers_collection := teachers_collection db |}.

Definition set_announcements (c : list document) : M unit :=
  fun db => (Returns tt, with_announcements c db).

(** [d[key]] *)
Definition getitem (d : document) (key : string) : M value :=
  match d !! key with
  | Some v => mret v
  | None => raise (KeyError key)
  end.

(** [d.get(key)] *)
Definition get (d : document) (key : string) : value :=
  default VNone (d !! key).

(** [not d] for the result of [find_one]: no document, or an empty one. *)
Definition falsy (d : option document) : bool :=
  match d with
  | None => true
  | Some d => bool_decide (d = ∅)
  end.

(** [result = []; for x in xs: result.append(f(x))] *)
Fixpoint for_each {A B : Type} (f : A -> M B) (xs : list A) : M (list B) :=
  match xs with
  | [] => mret []
  | x :: xs' => y ← f x; ys ← for_each f xs'; mret (y :: ys)
  end.

(** ** Example data

    A store with three announcements (one whose [start_date] is null, one
    with a past [start_date], one expired and without [start_date]) and one
    teacher. *)

Module Example.

Definition old : document :=
  {[ "_id" := VObjectId (Oid 1); "message" := VStr "Old";
     "start_date" := VNone; "end_date" := VStr "2099-01-01T00:00:00Z";
     "created_by" := VStr "alice";
     "created_at" := VStr "2020-01-01T00:00:00Z" ]}.

Definition new : document :=
  {[ "_id" := VObjectId (Oid 2); "message" := VStr "New";
     "start_date" := VStr "2020-01-01T00:00:00Z";
     "end_date" := VStr "2099-01-01T00:00:00Z";
     "created_by" := VStr "alice";
     "created_at" := VStr "2021-01-01T00:00:00Z" ]}.

Definition gone : document :=
  {[ "_id" := VObjectId (Oid 3); "message" := VStr "Gone";
     "end_date" := VStr "2021-01-01T00:00:00Z";
     "created_by" := VStr "alice";
     "created_at" := VStr "2022-01-01T00:00:00Z" ]}.

Definition alice : document :=
  {[ "_id" := VStr "alice"; "username" := VStr "alice";
     "display_name" := VStr "Alice"; "role" := VStr "teacher" ]}.

Definition db : database := {|
  announcements_collection := [old; new; gone];
  teachers_collection := [alice]
|}.

(** A store whose only announcement has a null [start_date]. *)
Definition db_null : database := {|
  announcements_collection := [old];
  teachers_collection := [alice]
|}.

(** A clock reading, [datetime.utcnow().isoformat()]. *)
Definition utcnow : string := "2026-11-04T10:00:00.123456".

End Example.

(** ** The router *)

Section Router.

Context {datetime : Type}.

(** [str.strip]: [strip s] is [s.strip()]. *)
Variable strip : string -> string.

(** [datetime.fromisoformat]: [None] stands for a raised [ValueError]. *)
Variable fromisoformat : string -> option datetime.

(** [ObjectId(s)]: [None] stands for a raised [InvalidId]. *)
Variable ObjectId_of_str : string -> option ObjectId.

Definition find_one_teacher (q : Mongo.query) : M (option document) :=
  c ← teachers; mret (Mongo.find_one q c).

Definition find_one_announcement (q : Mongo.query) : M (option document) :=
  c ← announcements; mret (Mongo.find_one q c).

Definition update_one_announcement (q : Mongo.query) (u : Mongo.update)
  : M unit :=
  c ← announcements; set_announcements (Mongo.update_one q u c).

Definition delete_one_announcement (q : Mongo.query) : M nat :=
  c ← announcements;
  let '(deleted_count, c') := Mongo.delete_one q c in
  set_announcements c';; mret deleted_count.

Definition insert_one_announcement (fresh : ObjectId) (d : document)
  : M value :=
  c ← announcements;
  match Mongo.insert_one fresh d c with
  | None => raise DuplicateKeyError
  | Some (inserted_id, c') => set_announcements c';; mret inserted_id
  end.

Definition verify_authenticated_user (username : string) : M document :=
  if negb (Py.truthy username)
  then raise (HTTPException 401 "Authentication required")
  else
    teacher ← find_one_teacher (Mongo.Field "_id" (Mongo.Is (VStr username)));
    if falsy teacher
    then raise (HTTPException 401 "Invalid user")
    else
      let teacher := default ∅ teacher in
      username ← getitem teacher "username";
      display_name ← getitem teacher "display_name";
      role ← getitem teacher "role";
      mret ({[ "username" := username;
               "display_name" := display_name;
               "role" := role ]} : document).

(** The filter of [get_active_announcements]. *)
Definition active_filter (current_time : string) : Mongo.query :=
  Mongo.All
    [ Mongo.Or
        [ Mongo.Field "start_date" (Mongo.Exists false);
          Mongo.Field "start_date" (Mongo.Is VNone);
          Mongo.Field "start_date" (Mongo.Lte (VStr current_time)) ];
      Mongo.Field "end_date" (Mongo.Gte (VStr current_time)) ].

(** The dictionary both listings build for one stored announcement. *)
Definition announcement_item (announcement : document) : M document :=
  id ← getitem announcement "_id";
  message ← getitem announcement "message";
  let start_date := get announcement "start_date" in
  end_date ← getitem announcement "end_date";
  created_by ← getitem announcement "created_by";
  created_at ← getitem announcement "created_at";
  mret ({[ "id" := VStr (py_str id);
           "message" := message;
           "start_date" := start_date;
           "end_date" := end_date;
           "created_by" := created_by;
           "created_at" := created_at ]} : document).

(** [utcnow] is [datetime.utcnow().isoformat()]. *)
Definition get_active_announcements (utcnow : string) : M (list document) :=
  let current_time := utcnow ++ "Z" in
  c ← announcements;
  let announcements :=
    Mongo.sort_desc "created_at" (Mongo.find (active_filter current_time) c) in
  for_each announcement_item announcements.

Definition get_all_announcements (username : string) : M (list document) :=
  verify_authenticated_user username;;
  c ← announcements;
  let announcements :=
    Mongo.sort_desc "created_at" (Mongo.find (Mongo.All []) c) in
  for_each announcement_item announcements.

(** [utcnow] is [datetime.utcnow().isoformat()]; [fresh] is the identifier
    the driver draws for the inserted document. *)
Definition create_announcement (utcnow : string) (fresh : ObjectId)
  (message end_date username : string) (start_date : option string)
  : M document :=
  user ← verify_authenticated_user username;
  if negb (Py.truthy (strip message))
  then raise (HTTPException 400 "Message cannot be empty")
  else if negb (Py.truthy end_date)
  then raise (HTTPException 400 "End date is required")
  else
    match
      (_ ← fromisoformat (Py.replace "Z" "+00:00" end_date);
       if Py.truthy_opt start_date
       then _ ← fromisoformat (Py.replace "Z" "+00:00" (default "" start_date));
            Some tt
       else Some tt)
    with
    | None => raise (HTTPException 400 "Invalid date format")
    | Some _ =>
        let announcement_data : document :=
          {[ "message" := VStr (strip message);
             "end_date" := VStr end_date;
             "created_by" := VStr username;
             "created_at" := VStr (utcnow ++ "Z") ]} in
        let announcement_data :=
          if Py.truthy_opt start_date
          then <["start_date" := VStr (default "" start_date)]> announcement_data
          else announcement_data in
        inserted_id ← insert_one_announcement fresh announcement_data;
        mret ({[ "id" := VStr (py_str inserted_id);
                 "message" := VStr "Announcement created successfully" ]}
              : document)
    end.

Definition update_announcement (announcement_id message end_date
  username : string) (start_date : option string) : M document :=
  user ← verify_authenticated_user username;
  match ObjectId_of_str announcement_id with
  | None => raise (HTTPException 400 "Invalid announcement ID")
  | Some obj_id =>
      announcement ←
        find_one_announcement (Mongo.Field "_id" (Mongo.Is (VObjectId obj_id)));
      if falsy announcement
      then raise (HTTPException 404 "Announcement not found")
      else if negb (Py.truthy (strip message))
      then raise (HTTPException 400 "Message cannot be empty")
      else if negb (Py.truthy end_date)
      then raise (HTTPException 400 "End date is required")
      else
        match
          (_ ← fromisoformat (Py.replace "Z" "+00:00" end_date);
           if Py.truthy_opt start_date
           then _ ← fromisoformat
                      (Py.replace "Z" "+00:00" (default "" start_date));
                Some tt
           else Some tt)
        with
        | None => raise (HTTPException 400 "Invalid date format")
        | Some _ =>
            let update_data : document :=
              {[ "message" := VStr (strip message);
                 "end_date" := VStr end_date ]} in
            update_data ←
              (if Py.truthy_opt start_date
               then mret (<["start_date" := VStr (default "" start_date)]>
                            update_data)
               else
                 update_one_announcement
                   (Mongo.Field "_id" (Mongo.Is (VObjectId obj_id)))
                   (Mongo.Unset {[ "start_date" := VStr "" ]});;
                 mret update_data);
            update_one_announcement
              (Mongo.Field "_id" (Mongo.Is (VObjectId obj_id)))
              (Mongo.Set_ update_data);;
            mret ({[ "message" := VStr "Announcement updated successfully" ]}
                  : document)
        end
  end.

Definition delete_announcement (announcement_id username : string)
  : M document :=
  user ← verify_authenticated_user username;
  match ObjectId_of_str announcement_id with
  | None => raise (HTTPException 400 "Invalid announcement ID")
  | Some obj_id =>
      deleted_count ←
        delete_one_announcement
          (Mongo.Field "_id" (Mongo.Is (VObjectId obj_id)));
      if (deleted_count =? 0)%nat
      then raise (HTTPException 404 "Announcement not found")
      else mret ({[ "message" := VStr "Announcement deleted successfully" ]}
                 : document)
  end.

(** ** Vocabulary of the statements *)

(** The requester passes [verify_authenticated_user]. *)
Definition authorized (db : database) (username : string) : Prop :=
  exists user, verify_authenticated_user username db = (Returns user, db).

(** The filter the router uses to reach one announcement. *)
Definition by_id (o : ObjectId) : Mongo.query :=
  Mongo.Field "_id" (Mongo.Is (VObjectId o)).

(** The store's [find_by_id]. *)
Definition find_by_id (o : ObjectId) (db : database) : option document :=
  Mongo.find_one (by_id o) (announcements_collection db).

(** A stored announcement carries the five fields both listings read with
    [announcement[...]]. *)
Definition listable (d : document) : Prop :=
  Forall (fun k => is_Some (d !! k))
    ["_id"; "message"; "end_date"; "created_by"; "created_at"].

(** [item] is the dictionary the listings return for the stored
    announcement [d]. *)
Definition listed_as (d item : document) : Prop :=
  forall db, announcement_item d db = (Returns item, db).

(** The dictionary a listing returns for a stored announcement that carries
    the five fields: the [_id] as a string under [id], the other fields as
    stored, and [start_date] null when the record has none. *)
Definition item_of (d : document) : document :=
  {[ "id" := VStr (py_str (get d "_id"));
     "message" := get d "message";
     "start_date" := get d "start_date";
     "end_date" := get d "end_date";
     "created_by" := get d "created_by";
     "created_at" := get d "created_at" ]}.

(** What the filter of [get_active_announcements] selects at instant [T]:
    [start_date] absent, null or a string at most [T], and [end_date] a
    string at least [T]. *)
Definition is_active (T : string) (d : document) : bool :=
  match d !! "start_date" with
  | None | Some VNone => true
  | Some (VStr s) => String.leb s T
  | Some (VObjectId _) => false
  end
  && match d !! "end_date" with
     | Some (VStr e) => String.leb T e
     | _ => false
     end.

(** The active predicate in the words of the specification:
    ([start_date] is absent or [start_date <= T]) and [end_date >= T],
    where [<=] and [>=] compare strings. *)
Definition spec_is_active (T : string) (d : document) : bool :=
  match d !! "start_date" with
  | None => true
  | Some (VStr s) => String.leb s T
  | Some _ => false
  end
  && match d !! "end_date" with
     | Some (VStr e) => String.leb T e
     | _ => false
     end.

(** Rules 1 to 4 of the specification, in its order: the first rule that
    fails gives the failure, [None] when all four pass. *)
Definition validation_failure (message end_date : string)
  (start_date : option string) : option exn :=
  if String.eqb (strip message) ""
  then Some (HTTPException 400 "Message cannot be empty")
  else if String.eqb end_date ""
  then Some (HTTPException 400 "End date is required")
  else if negb (bool_decide
                  (is_Some (fromisoformat (Py.replace "Z" "+00:00" end_date))))
  then Some (HTTPException 400 "Invalid date format")
  else
    match start_date with
    | Some s =>
        if negb (String.eqb s "")
           && negb (bool_decide
                      (is_Some (fromisoformat (Py.replace "Z" "+00:00" s))))
        then Some (HTTPException 400 "Invalid date format")
        else None
    | None => None
    end.

(** Two stored documents the listing cannot tell apart. *)
Definition same_listing (T : string) (d d' : document) : Prop :=
  Mongo.matches (active_filter T) d = Mongo.matches (active_filter T) d'
  /\ Mongo.sort_key "created_at" d = Mongo.sort_key "created_at" d'
  /\ forall db, announcement_item d db = announcement_item d' db.

(** The stored record after a successful [update_announcement]. *)
Definition updated (message end_date : string) (start_date : option string)
  (A : document) : document :=
  let update_data : document :=
    {[ "message" := VStr (strip message); "end_date" := VStr end_date ]} in
  if Py.truthy_opt start_date
  then <["start_date" := VStr (default "" start_date)]> update_data ∪ A
  else update_data ∪ A ∖ {[ "start_date" := VStr "" ]}.

(** The inputs that fail validation: the trimmed message is empty, or
    [end_date] is missing or malformed, or a non-empty [start_date] is
    malformed. *)
Definition rejected (message end_date : string) (start_date : option string)
  : Prop :=
  strip message = ""
  \/ end_date = ""
  \/ fromisoformat (Py.replace "Z" "+00:00" end_date) = None
  \/ exists s, start_date = Some s /\ s <> ""
               /\ fromisoformat (Py.replace "Z" "+00:00" s) = None.

(** [a] is listed before [b]: its [created_at] is not the smaller one. *)
Definition newest_first (a b : document) : Prop :=
  Mongo.leb (Mongo.sort_key "created_at" b) (Mongo.sort_key "created_at" a)
  = true.


(** [_id] is a unique key of a collection. *)
Definition unique_ids (c : list document) : Prop :=
  NoDup (map (fun d : document => d !! "_id") c).

(** * Properties *)

(** ** The order on strings and on values *)

Lemma string_leb_refl (s : string) : String.leb s s = true.
Proof.
  unfold String.leb.
  replace (String.compare s s) with Eq; [done|].
  symmetry. by apply OrderedTypeEx.String_as_OT.cmp_eq.
Qed.

Lemma string_compare_lt_trans (a b c : string) :
  String.compare a b = Lt -> String.compare b c = Lt -> String.compare a c = Lt.
Proof.
  intros Hab Hbc.
  apply OrderedTypeEx.String_as_OT.cmp_lt.
  eapply OrderedTypeEx.String_as_OT.lt_trans;
    by apply OrderedTypeEx.String_as_OT.cmp_lt.
Qed.

Lemma string_leb_trans (a b c : string) :
  String.leb a b = true -> String.leb b c = true -> String.leb a c = true.
Proof.
  unfold String.leb. intros Hab Hbc.
  destruct (String.compare a b) eqn:Eab; [| |done].
  - apply OrderedTypeEx.String_as_OT.cmp_eq in Eab. by subst.
  - destruct (String.compare b c) eqn:Ebc; [| |done].
    + apply OrderedTypeEx.String_as_OT.cmp_eq in Ebc. subst. by rewrite Eab.
    + by rewrite (string_compare_lt_trans a b c).
Qed.

(** [s <= t] excludes [t < s]. *)
Lemma string_leb_not_gt (s t : string) :
  String.leb s t = true -> String.ltb t s = false.
Proof.
  unfold String.leb, String.ltb. rewrite (String.compare_antisym s t).
  by destruct (String.compare t s).
Qed.

Lemma value_compare_antisym (a b : value) :
  Mongo.compare a b = CompOpp (Mongo.compare b a).
Proof.
  destruct a as [|s|[m]], b as [|t|[n]]; simpl; try done.
  - apply String.compare_antisym.
  - apply N.compare_antisym.
Qed.

Lemma value_leb_total (a b : value) :
  Mongo.leb a b = true \/ Mongo.leb b a = true.
Proof.
  unfold Mongo.leb. rewrite (value_compare_antisym b a).
  destruct (Mongo.compare a b); simpl; auto.
Qed.


Lemma value_leb_trans (a b c : value) :
  Mongo.leb a b = true -> Mongo.leb b c = true -> Mongo.leb a c = true.
Proof.
  destruct a as [|s|[m]], b as [|t|[n]], c as [|u|[o]];
    unfold Mongo.leb; simpl; try done.
  - apply string_leb_trans.
  - intros Hmn Hno.
    destruct (N.compare_spec m n), (N.compare_spec n o); try done;
      destruct (N.compare_spec m o); try done; lia.
Qed.

(** Equal keys: each below the other. *)
Lemma value_leb_antisym (a b : value) :
  Mongo.leb a b = true -> Mongo.leb b a = true -> a = b.
Proof.
  destruct a as [|s|[m]], b as [|t|[n]]; unfold Mongo.leb; simpl; try done.
  - intros H1 H2. f_equal. by apply String.leb_antisym.
  - intros H1 H2. do 2 f_equal.
    destruct (N.compare_spec m n); try done.
    destruct (N.compare_spec n m); try done. lia.
Qed.

(** ** The store operations *)

Lemma matches_by_id (o : ObjectId) (d : document) :
  Mongo.matches (by_id o) d = bool_decide (d !! "_id" = Some (VObjectId o)).
Proof.
  simpl. destruct (d !! "_id") as [v|]; simpl; [|done].
  apply bool_decide_ext. split; congruence.
Qed.

Lemma matches_active_filter (T : string) (d : document) :
  Mongo.matches (active_filter T) d = is_active T d.
Proof.
  unfold is_active. simpl.
  destruct (d !! "start_date") as [[|s|o]|], (d !! "end_date") as [[|e|o']|];
    simpl; rewrite ?andb_true_r, ?andb_false_r, ?orb_false_r; done.
Qed.

Lemma find_one_None (q : Mongo.query) (c : list document) :
  Mongo.find_one q c = None <-> Forall (fun d => Mongo.matches q d = false) c.
Proof.
  unfold Mongo.find_one, Mongo.find.
  induction c as [|d c IH]; simpl.
  - split; [constructor | done].
  - destruct (Mongo.matches q d) eqn:E; simpl.
    + split; [done | intros H; inversion H; congruence].
    + rewrite IH. split; [by constructor | by inversion 1].
Qed.

(** The document [find_one] returns is the first match. *)
Lemma find_one_Some (q : Mongo.query) (c : list document) (d : document) :
  Mongo.find_one q c = Some d <->
  exists before after,
    c = (before ++ d :: after)%list /\ Mongo.matches q d = true
    /\ Forall (fun e => Mongo.matches q e = false) before.
Proof.
  unfold Mongo.find_one, Mongo.find.
  induction c as [|e c IH]; simpl.
  - split; [done | intros (b & a & H & _); by destruct b].
  - destruct (Mongo.matches q e) eqn:E; simpl.
    + split.
      * intros [= ->]. exists [], c. by repeat split.
      * intros ([|e' b] & a & H & Hd & Hb); simpl in H.
        -- congruence.
        -- injection H as -> ->. inversion Hb; congruence.
    + rewrite IH. split.
      * intros (b & a & -> & Hd & Hb). exists (e :: b), a.
        repeat split; [done | by constructor].
      * intros ([|e' b] & a & H & Hd & Hb); simpl in H.
        -- congruence.
        -- injection H as -> ->. exists b, a. by inversion Hb.
Qed.

Lemma update_one_None (q : Mongo.query) (u : Mongo.update) (c : list document) :
  Forall (fun d => Mongo.matches q d = false) c -> Mongo.update_one q u c = c.
Proof.
  induction 1 as [|d c Hd _ IH]; simpl; [done|]. by rewrite Hd, IH.
Qed.

Lemma update_one_first (q : Mongo.query) (u : Mongo.update)
  (before after : list document) (d : document) :
  Forall (fun e => Mongo.matches q e = false) before ->
  Mongo.matches q d = true ->
  Mongo.update_one q u (before ++ d :: after)%list
  = (before ++ Mongo.apply_update u d :: after)%list.
Proof.
  intros Hb Hd. induction Hb as [|e b He _ IH]; simpl.
  - by rewrite Hd.
  - by rewrite He, IH.
Qed.

Lemma delete_one_None (q : Mongo.query) (c : list document) :
  Forall (fun d => Mongo.matches q d = false) c ->
  Mongo.delete_one q c = (O, c).
Proof.
  induction 1 as [|d c Hd _ IH]; simpl; [done|]. by rewrite Hd, IH.
Qed.

Lemma delete_one_first (q : Mongo.query) (before after : list document)
  (d : document) :
  Forall (fun e => Mongo.matches q e = false) before ->
  Mongo.matches q d = true ->
  Mongo.delete_one q (before ++ d :: after)%list
  = (1%nat, (before ++ after)%list).
Proof.
  intros Hb Hd. induction Hb as [|e b He _ IH]; simpl.
  - by rewrite Hd.
  - by rewrite He, IH.
Qed.

(** [delete_one] reports 0 or 1, and 0 only when it left the collection
    as it was. *)
Lemma delete_one_count (q : Mongo.query) (c : list document) :
  (Mongo.find_one q c = None /\ Mongo.delete_one q c = (O, c))
  \/ (is_Some (Mongo.find_one q c)
      /\ exists c', Mongo.delete_one q c = (1%nat, c')).
Proof.
  destruct (Mongo.find_one q c) as [d|] eqn:E.
  - right. split; [done|].
    apply find_one_Some in E as (b & a & -> & Hd & Hb).
    eexists. by apply delete_one_first.
  - left. split; [done|]. apply delete_one_None. by apply find_one_None.
Qed.

(** With unique identifiers, nothing after the first match matches. *)
Lemma unique_ids_after (o : ObjectId) (before after : list document)
  (d : document) :
  unique_ids (before ++ d :: after)%list ->
  Mongo.matches (by_id o) d = true ->
  Forall (fun e => Mongo.matches (by_id o) e = false) (before ++ after)%list.
Proof.
  unfold unique_ids. intros Hnd Hd. rewrite map_app in Hnd. simpl in Hnd.
  rewrite matches_by_id in Hd. apply bool_decide_eq_true in Hd.
  apply NoDup_app in Hnd as (_ & Hcross & Hafter).
  apply NoDup_cons in Hafter as [Hafter _].
  apply Forall_forall. intros e He.
  rewrite matches_by_id. apply bool_decide_eq_false. intros Heq.
  assert (Hin : forall l : list document,
             e ∈ l -> d !! "_id" ∈ map (fun d : document => d !! "_id") l).
  { intros l Hl. rewrite Hd, <- Heq.
    apply (list_elem_of_fmap_2 (fun d : document => d !! "_id")), Hl. }
  apply elem_of_app in He as [He|He].
  - apply (Hcross _ (Hin _ He)). left.
  - apply Hafter, Hin, He.
Qed.

(** ** Sorting by [created_at], newest first *)

Lemma insert_desc_perm (f : string) (d : document) (l : list document) :
  Permutation (d :: l) (Mongo.insert_desc f d l).
Proof.
  induction l as [|e l IH]; simpl; [done|].
  destruct (Mongo.leb _ _); [done|].
  etransitivity; [apply perm_swap|]. by constructor.
Qed.

Lemma sort_desc_perm (f : string) (l : list document) :
  Permutation l (Mongo.sort_desc f l).
Proof.
  induction l as [|d l IH]; simpl; [done|].
  etransitivity; [|apply insert_desc_perm]. by constructor.
Qed.

Lemma sort_desc_elem_of (f : string) (l : list document) (d : document) :
  d ∈ Mongo.sort_desc f l <-> d ∈ l.
Proof. by rewrite <- (sort_desc_perm f l). Qed.

Section Descending.

Variable f : string.

Let before (a b : document) : Prop :=
  Mongo.leb (Mongo.sort_key f b) (Mongo.sort_key f a) = true.

Lemma insert_desc_sorted (d : document) (l : list document) :
  StronglySorted before l -> StronglySorted before (Mongo.insert_desc f d l).
Proof.
  induction 1 as [|e l Hl IH He]; simpl.
  - repeat constructor.
  - destruct (Mongo.leb (Mongo.sort_key f e) (Mongo.sort_key f d)) eqn:E.
    + constructor; [by constructor|].
      constructor; [exact E|].
      eapply Forall_impl; [exact He|]. intros x Hx. unfold before in *.
      by apply (value_leb_trans _ (Mongo.sort_key f e)).
    + constructor; [exact IH|].
      rewrite <- (insert_desc_perm f d l). constructor; [|exact He].
      unfold before. by destruct (value_leb_total (Mongo.sort_key f e)
                                   (Mongo.sort_key f d)); [congruence|].
Qed.

Lemma sort_desc_sorted (l : list document) :
  StronglySorted before (Mongo.sort_desc f l).
Proof.
  induction l as [|d l IH]; simpl; [constructor|].
  by apply insert_desc_sorted.
Qed.



End Descending.

(** The empty filter selects every document. *)
Lemma find_all (c : list document) : Mongo.find (Mongo.All []) c = c.
Proof.
  unfold Mongo.find. induction c as [|d c IH]; [done|].
  simpl. f_equal. exact IH.
Qed.

Lemma find_active (T : string) (c : list document) (d : document) :
  d ∈ Mongo.find (active_filter T) c <-> d ∈ c /\ is_active T d = true.
Proof.
  unfold Mongo.find. rewrite !list_elem_of_In, filter_In.
  by rewrite matches_active_filter.
Qed.

(** ** Running the endpoints *)

Ltac run :=
  repeat progress
    (unfold mbind, M_bind, mret, M_ret, raise, getitem, find_one_teacher,
       find_one_announcement, update_one_announcement,
       delete_one_announcement, insert_one_announcement, announcements,
       teachers, set_announcements);
  cbn beta iota zeta.

Lemma with_announcements_same (db : database) :
  with_announcements (announcements_collection db) db = db.
Proof. by destruct db. Qed.

Lemma truthy_false (s : string) : Py.truthy s = false <-> s = "".
Proof.
  unfold Py.truthy. destruct (String.eqb_spec s ""); simpl; split; done.
Qed.

Lemma truthy_true (s : string) : Py.truthy s = true <-> s <> "".
Proof.
  unfold Py.truthy. destruct (String.eqb_spec s ""); simpl; split; done.
Qed.

(** A document found by its [_id] is not empty, so [not d] is false for
    it. *)
Lemma falsy_find_one (v : value) (c : list document) :
  v <> VNone ->
  falsy (Mongo.find_one (Mongo.Field "_id" (Mongo.Is v)) c)
  = match Mongo.find_one (Mongo.Field "_id" (Mongo.Is v)) c with
    | None => true
    | Some _ => false
    end.
Proof.
  intros Hv. destruct (Mongo.find_one _ c) as [d|] eqn:E; simpl; [|done].
  apply bool_decide_eq_false. intros ->.
  apply find_one_Some in E as (_ & _ & _ & Hd & _). simpl in Hd.
  rewrite lookup_empty in Hd. simpl in Hd.
  by apply bool_decide_eq_true in Hd.
Qed.

(** *** [verify_authenticated_user] *)

Lemma verify_authenticated_user_eq (username : string) (db : database) :
  verify_authenticated_user username db
  = if String.eqb username ""
    then (Raises (HTTPException 401 "Authentication required"), db)
    else
      match Mongo.find_one (Mongo.Field "_id" (Mongo.Is (VStr username)))
              (teachers_collection db) with
      | None => (Raises (HTTPException 401 "Invalid user"), db)
      | Some teacher =>
          match teacher !! "username", teacher !! "display_name",
                teacher !! "role" with
          | Some u, Some n, Some r =>
              (Returns ({[ "username" := u; "display_name" := n;
                           "role" := r ]} : document), db)
          | None, _, _ => (Raises (KeyError "username"), db)
          | Some _, None, _ => (Raises (KeyError "display_name"), db)
          | Some _, Some _, None => (Raises (KeyError "role"), db)
          end
      end.
Proof.
  unfold verify_authenticated_user, Py.truthy.
  destruct (String.eqb username ""); simpl; [done|].
  run. rewrite falsy_find_one by done.
  destruct (Mongo.find_one _ _) as [t|]; simpl; [|done].
  destruct (t !! "username"); simpl; [|done].
  destruct (t !! "display_name"); simpl; [|done].
  destruct (t !! "role"); simpl; done.
Qed.

(** Verification reads the teachers and writes nothing. *)
Lemma verify_authenticated_user_unchanged (username : string)
  (db db' : database) (r : outcome document) :
  verify_authenticated_user username db = (r, db') -> db' = db.
Proof.
  rewrite verify_authenticated_user_eq.
  repeat case_match; congruence.
Qed.

Lemma verify_authenticated_user_teachers (username : string)
  (db db' : database) :
  teachers_collection db = teachers_collection db' ->
  fst (verify_authenticated_user username db)
  = fst (verify_authenticated_user username db').
Proof.
  intros H. rewrite !verify_authenticated_user_eq, H.
  repeat case_match; done.
Qed.

Lemma authorized_with_announcements (c : list document) (db : database)
  (username : string) :
  authorized db username -> authorized (with_announcements c db) username.
Proof.
  intros [user Hu].
  pose proof (verify_authenticated_user_teachers username db
                (with_announcements c db) eq_refl) as Hfst.
  rewrite Hu in Hfst. simpl in Hfst. exists user.
  destruct (verify_authenticated_user username (with_announcements c db))
    as [r db'] eqn:E.
  apply verify_authenticated_user_unchanged in E as Hdb. simpl in Hfst.
  congruence.
Qed.


(** *** The listings *)

Lemma announcement_item_listable (d : document) :
  listable d -> exists item, listed_as d item.
Proof.
  unfold listable, listed_as. rewrite !Forall_cons.
  intros ([id Hid] & [m Hm] & [e He] & [cb Hcb] & [ca Hca] & _).
  eexists. intros db. unfold announcement_item. run.
  rewrite Hid. run. rewrite Hm. run. rewrite He. run.
  rewrite Hcb. run. rewrite Hca. run. reflexivity.
Qed.

(** The dictionary depends on the five fields read and on
    [get "start_date"] only. *)
Lemma announcement_item_ext (d d' : document) (db : database) :
  Forall (fun k => d !! k = d' !! k)
    ["_id"; "message"; "end_date"; "created_by"; "created_at"] ->
  get d "start_date" = get d' "start_date" ->
  announcement_item d db = announcement_item d' db.
Proof.
  rewrite !Forall_cons. intros (Hid & Hm & He & Hcb & Hca & _) Hs.
  unfold announcement_item. run. by rewrite Hid, Hm, He, Hcb, Hca, Hs.
Qed.

Lemma for_each_listed (l : list document) (db : database) :
  Forall listable l ->
  exists items,
    for_each announcement_item l db = (Returns items, db)
    /\ Forall2 listed_as l items.
Proof.
  induction 1 as [|d l Hd _ (items & Hrun & Hitems)]; simpl.
  - exists []. split; [done | constructor].
  - destruct (announcement_item_listable d Hd) as [item Hitem].
    exists (item :: items). split; [|by constructor].
    run. rewrite Hitem. run. by rewrite Hrun.
Qed.

Lemma for_each_ext (l l' : list document) (db : database) :
  Forall2 (fun d d' => forall db, announcement_item d db = announcement_item d' db)
    l l' ->
  for_each announcement_item l db = for_each announcement_item l' db.
Proof.
  intros H. revert db. induction H as [|d d' l l' Hd _ IH]; intros db; simpl.
  - done.
  - run. rewrite Hd. destruct (announcement_item d' db) as [[item|e] db1]; [|done].
    by rewrite IH.
Qed.

Lemma listable_sorted_found (q : Mongo.query) (c : list document) :
  Forall listable c ->
  Forall listable (Mongo.sort_desc "created_at" (Mongo.find q c)).
Proof.
  rewrite !Forall_forall. intros Hc d Hd. apply Hc.
  apply sort_desc_elem_of in Hd. unfold Mongo.find in Hd.
  apply list_elem_of_In, filter_In in Hd as [Hd _]. by apply list_elem_of_In.
Qed.

Lemma get_active_announcements_run (utcnow : string) (db : database) :
  Forall listable (announcements_collection db) ->
  exists items,
    get_active_announcements utcnow db = (Returns items, db)
    /\ Forall2 listed_as
         (Mongo.sort_desc "created_at"
            (Mongo.find (active_filter (utcnow ++ "Z"))
               (announcements_collection db)))
         items.
Proof.
  intros Hc. unfold get_active_announcements. run.
  by apply for_each_listed, listable_sorted_found.
Qed.

Lemma get_all_announcements_run (username : string) (db : database) :
  authorized db username ->
  Forall listable (announcements_collection db) ->
  exists items,
    get_all_announcements username db = (Returns items, db)
    /\ Forall2 listed_as
         (Mongo.sort_desc "created_at" (announcements_collection db)) items.
Proof.
  intros [user Hu] Hc. unfold get_all_announcements. run. rewrite Hu.
  rewrite find_all. run.
  apply (listable_sorted_found (Mongo.All [])) in Hc. rewrite find_all in Hc.
  by apply for_each_listed.
Qed.

(** *** [create_announcement] *)

(** A listable record is listed as [item_of] says. *)
Lemma listable_item_of (d : document) : listable d -> listed_as d (item_of d).
Proof.
  unfold listable, listed_as, item_of, get. rewrite !Forall_cons.
  intros ([id Hid] & [m Hm] & [e He] & [cb Hcb] & [ca Hca] & _) db.
  unfold announcement_item, get. run.
  rewrite Hid. run. rewrite Hm. run. rewrite He. run.
  rewrite Hcb. run. rewrite Hca. run. reflexivity.
Qed.

Lemma for_each_item_of (l : list document) (db : database) :
  Forall listable l ->
  for_each announcement_item l db = (Returns (map item_of l), db).
Proof.
  induction 1 as [|d l Hd _ IH]; [done|]. cbn [for_each map]. run.
  rewrite (listable_item_of d Hd db). run. by rewrite IH.
Qed.

Lemma get_active_announcements_items (utcnow : string) (db : database) :
  Forall listable (announcements_collection db) ->
  get_active_announcements utcnow db
  = (Returns
       (map item_of
          (Mongo.sort_desc "created_at"
             (Mongo.find (active_filter (utcnow ++ "Z"))
                (announcements_collection db)))),
     db).
Proof.
  intros Hc. unfold get_active_announcements. run.
  by apply for_each_item_of, listable_sorted_found.
Qed.

Lemma get_all_announcements_items (username : string) (db : database) :
  authorized db username ->
  Forall listable (announcements_collection db) ->
  get_all_announcements username db
  = (Returns
       (map item_of
          (Mongo.sort_desc "created_at" (announcements_collection db))),
     db).
Proof.
  intros [user Hu] Hc. unfold get_all_announcements. run. rewrite Hu.
  rewrite find_all. run.
  apply (listable_sorted_found (Mongo.All [])) in Hc. rewrite find_all in Hc.
  by apply for_each_item_of.
Qed.


Lemma is_Some_bool {A : Type} (o : option A) :
  bool_decide (is_Some o) = match o with Some _ => true | None => false end.
Proof.
  destruct o.
  - apply bool_decide_eq_true. eauto.
  - apply bool_decide_eq_false. by intros [? ?].
Qed.

(** The [try] block of [create_announcement] and [update_announcement]
    fails exactly when rule 3 or rule 4 does. *)
Lemma dates_parse (end_date : string) (start_date : option string) :
  (_ ← fromisoformat (Py.replace "Z" "+00:00" end_date);
   if Py.truthy_opt start_date
   then _ ← fromisoformat (Py.replace "Z" "+00:00" (default "" start_date));
        Some tt
   else Some tt)
  = if negb (bool_decide
               (is_Some (fromisoformat (Py.replace "Z" "+00:00" end_date))))
    then None
    else
      match start_date with
      | Some s =>
          if negb (String.eqb s "")
             && negb (bool_decide
                        (is_Some (fromisoformat (Py.replace "Z" "+00:00" s))))
          then None
          else Some tt
      | None => Some tt
      end.
Proof.
  rewrite is_Some_bool.
  destruct (fromisoformat (Py.replace "Z" "+00:00" end_date)); [|done].
  destruct start_date as [s|]; [|done].
  cbn [Py.truthy_opt default from_option id mbind option_bind].
  unfold Py.truthy, id.
  rewrite is_Some_bool.
  destruct (String.eqb s ""); [done|].
  by destruct (fromisoformat (Py.replace "Z" "+00:00" s)).
Qed.

Lemma create_announcement_unauthorized (utcnow : string) (fresh : ObjectId)
  (message end_date username : string) (start_date : option string)
  (db : database) (e : exn) :
  verify_authenticated_user username db = (Raises e, db) ->
  create_announcement utcnow fresh message end_date username start_date db
  = (Raises e, db).
Proof. intros H. unfold create_announcement. run. by rewrite H. Qed.

Lemma create_announcement_eq (utcnow : string) (fresh : ObjectId)
  (message end_date username : string) (start_date : option string)
  (db : database) :
  authorized db username ->
  create_announcement utcnow fresh message end_date username start_date db
  = match validation_failure message end_date start_date with
    | Some e => (Raises e, db)
    | None =>
        let announcement_data : document :=
          {[ "message" := VStr (strip message);
             "end_date" := VStr end_date;
             "created_by" := VStr username;
             "created_at" := VStr (utcnow ++ "Z") ]} in
        match
          Mongo.insert_one fresh
            (if Py.truthy_opt start_date
             then <["start_date" := VStr (default "" start_date)]>
                    announcement_data
             else announcement_data)
            (announcements_collection db)
        with
        | None => (Raises DuplicateKeyError, db)
        | Some (inserted_id, c) =>
            (Returns ({[ "id" := VStr (py_str inserted_id);
                         "message" := VStr "Announcement created successfully" ]}
                      : document),
             with_announcements c db)
        end
    end.
Proof.
  intros [user Hu]. unfold create_announcement, validation_failure. run.
  rewrite Hu. unfold Py.truthy at 1 2.
  destruct (String.eqb (strip message) ""); [done|].
  destruct (String.eqb end_date ""); [done|].
  cbn [negb]. rewrite dates_parse.
  destruct (negb (bool_decide (is_Some (fromisoformat _)))); [done|].
  assert (Hins : forall d : document,
    (let (o, db') :=
       match Mongo.insert_one fresh d (announcements_collection db) with
       | Some (inserted_id, c') =>
           fun db0 : database =>
             let (o, db') := (Returns (), with_announcements c' db0) in
             match o with
             | Returns _ => (Returns inserted_id, db')
             | Raises e => (Raises e, db')
             end
       | None => fun db0 : database => (Raises DuplicateKeyError, db0)
       end db in
     match o with
     | Returns a =>
         (Returns ({[ "id" := VStr (py_str a);
                      "message" := VStr "Announcement created successfully" ]}
                   : document), db')
     | Raises e => (Raises e, db')
     end)
    = match Mongo.insert_one fresh d (announcements_collection db) with
      | None => (Raises DuplicateKeyError, db)
      | Some (inserted_id, c) =>
          (Returns ({[ "id" := VStr (py_str inserted_id);
                       "message" := VStr "Announcement created successfully" ]}
                    : document),
           with_announcements c db)
      end).
  { intros d. by destruct (Mongo.insert_one fresh d _) as [[i c]|]. }
  destruct start_date as [s|]; [|apply Hins].
  destruct (negb (String.eqb s "") && _); [done|]. apply Hins.
Qed.

(** *** [update_announcement] *)

Lemma update_announcement_unauthorized (announcement_id message end_date
  username : string) (start_date : option string) (db : database) (e : exn) :
  verify_authenticated_user username db = (Raises e, db) ->
  update_announcement announcement_id message end_date username start_date db
  = (Raises e, db).
Proof. intros H. unfold update_announcement. run. by rewrite H. Qed.

Lemma update_announcement_eq (announcement_id message end_date
  username : string) (start_date : option string) (db : database) :
  authorized db username ->
  update_announcement announcement_id message end_date username start_date db
  = match ObjectId_of_str announcement_id with
    | None => (Raises (HTTPException 400 "Invalid announcement ID"), db)
    | Some obj_id =>
        match find_by_id obj_id db with
        | None => (Raises (HTTPException 404 "Announcement not found"), db)
        | Some _ =>
            match validation_failure message end_date start_date with
            | Some e => (Raises e, db)
            | None =>
                let update_data : document :=
                  {[ "message" := VStr (strip message);
                     "end_date" := VStr end_date ]} in
                let c := announcements_collection db in
                (Returns ({[ "message" :=
                               VStr "Announcement updated successfully" ]}
                          : document),
                 with_announcements
                   (if Py.truthy_opt start_date
                    then
                      Mongo.update_one (by_id obj_id)
                        (Mongo.Set_
                           (<["start_date" := VStr (default "" start_date)]>
                              update_data)) c
                    else
                      Mongo.update_one (by_id obj_id) (Mongo.Set_ update_data)
                        (Mongo.update_one (by_id obj_id)
                           (Mongo.Unset {[ "start_date" := VStr "" ]}) c))
                   db)
            end
        end
    end.
Proof.
  intros [user Hu]. unfold update_announcement, validation_failure, find_by_id.
  run. rewrite Hu.
  destruct (ObjectId_of_str announcement_id) as [obj_id|]; [|done].
  fold (by_id obj_id). unfold by_id at 1. rewrite falsy_find_one by done.
  fold (by_id obj_id).
  destruct (Mongo.find_one (by_id obj_id) _) as [a|]; [|done].
  unfold Py.truthy at 1 2.
  destruct (String.eqb (strip message) ""); [done|].
  destruct (String.eqb end_date ""); [done|].
  cbn [negb]. rewrite dates_parse.
  destruct (negb (bool_decide (is_Some (fromisoformat _)))); [done|].
  destruct start_date as [s|].
  - cbn [Py.truthy_opt]. unfold Py.truthy.
    by destruct (String.eqb s ""), (bool_decide _).
  - done.
Qed.

(** *** [delete_announcement] *)

Lemma delete_announcement_unauthorized (announcement_id username : string)
  (db : database) (e : exn) :
  verify_authenticated_user username db = (Raises e, db) ->
  delete_announcement announcement_id username db = (Raises e, db).
Proof. intros H. unfold delete_announcement. run. by rewrite H. Qed.

Lemma delete_announcement_eq (announcement_id username : string)
  (db : database) :
  authorized db username ->
  delete_announcement announcement_id username db
  = match ObjectId_of_str announcement_id with
    | None => (Raises (HTTPException 400 "Invalid announcement ID"), db)
    | Some obj_id =>
        let '(deleted_count, c) :=
          Mongo.delete_one (by_id obj_id) (announcements_collection db) in
        (if (deleted_count =? 0)%nat
         then Raises (HTTPException 404 "Announcement not found")
         else Returns ({[ "message" :=
                            VStr "Announcement deleted successfully" ]}
                       : document),
         with_announcements c db)
    end.
Proof.
  intros [user Hu]. unfold delete_announcement. run. rewrite Hu.
  destruct (ObjectId_of_str announcement_id) as [obj_id|]; [|done].
  fold (by_id obj_id).
  destruct (Mongo.delete_one (by_id obj_id) _) as [n c].
  by destruct (n =? 0)%nat.
Qed.

(** ** Authorization *)

(** C4.  [verify_authenticated_user] fails with status 401 when the
    identity is empty, and when no teacher record has the identity as its
    [_id]; when a record has it, the call succeeds and returns the record's
    [username], [display_name] and [role], whatever value the role is.  The
    store is left as it was in every case. *)
Theorem verify_authenticated_user_spec (db : database) (username : string) :
  (username = "" ->
   verify_authenticated_user username db
   = (Raises (HTTPException 401 "Authentication required"), db))
  /\ (username <> "" ->
      Forall (fun t : document => t !! "_id" <> Some (VStr username))
        (teachers_collection db) ->
      verify_authenticated_user username db
      = (Raises (HTTPException 401 "Invalid user"), db))
  /\ (forall (teacher : document) (u n role : value),
        username <> "" ->
        Mongo.find_one (Mongo.Field "_id" (Mongo.Is (VStr username)))
          (teachers_collection db) = Some teacher ->
        teacher !! "username" = Some u ->
        teacher !! "display_name" = Some n ->
        teacher !! "role" = Some role ->
        verify_authenticated_user username db
        = (Returns {[ "username" := u; "display_name" := n; "role" := role ]},
           db)).
Proof.
  rewrite verify_authenticated_user_eq. repeat split.
  - by intros ->.
  - intros Hne Hnone. apply String.eqb_neq in Hne. rewrite Hne.
    replace (Mongo.find_one _ _) with (@None document); [done|].
    symmetry. apply find_one_None.
    eapply Forall_impl; [exact Hnone|]. intros t Ht. simpl.
    apply bool_decide_eq_false. intros Heq. apply Ht.
    destruct (t !! "_id"); simpl in Heq; [by subst | done].
  - intros teacher u n role Hne Hfound Hu Hn Hr.
    apply String.eqb_neq in Hne. by rewrite Hne, Hfound, Hu, Hn, Hr.
Qed.

(** ** The listings *)

Lemma find_active_filter (T : string) (c : list document) :
  Mongo.find (active_filter T) c = List.filter (is_active T) c.
Proof.
  unfold Mongo.find. apply filter_ext. intros d. apply matches_active_filter.
Qed.

(** C1 (amended).  On a store whose records all carry [_id], [message],
    [end_date], [created_by] and [created_at]: at clock reading [utcnow],
    with [T] the reading followed by [Z], [get_active_announcements]
    returns one item per stored announcement that is active at [T], and
    none for any other, each item holding the fields of its record
    ([item_of]: the identifier as a string, [message], [start_date] or
    null, [end_date], [created_by], [created_at]).  Active means:
    [start_date] is absent, null or a string [<= T], and [end_date] is a
    string [>= T], strings compared lexicographically.  In particular no
    listed announcement has [end_date < T] or [start_date > T]. *)
Theorem get_active_announcements_active (utcnow : string) (db : database) :
  Forall listable (announcements_collection db) ->
  exists listed,
    get_active_announcements utcnow db = (Returns (map item_of listed), db)
    /\ Permutation listed
         (List.filter (is_active (utcnow ++ "Z")) (announcements_collection db))
    /\ (forall A,
          A ∈ listed <->
          A ∈ announcements_collection db
          /\ is_active (utcnow ++ "Z") A = true)
    /\ (forall A, A ∈ listed ->
          (forall e, A !! "end_date" = Some (VStr e) ->
                     String.ltb e (utcnow ++ "Z") = false)
          /\ (forall s, A !! "start_date" = Some (VStr s) ->
                        String.ltb (utcnow ++ "Z") s = false)).
Proof.
  intros Hc. set (T := utcnow ++ "Z").
  assert (Hin : forall A,
    A ∈ Mongo.sort_desc "created_at"
          (Mongo.find (active_filter T) (announcements_collection db)) <->
    A ∈ announcements_collection db /\ is_active T A = true).
  { intros A. by rewrite sort_desc_elem_of, find_active. }
  eexists.
  split; [by apply get_active_announcements_items|]. split; [|split].
  - rewrite <- find_active_filter. symmetry. apply sort_desc_perm.
  - exact Hin.
  - intros A HA. apply Hin in HA as [_ Ha]. unfold is_active in Ha.
    apply andb_prop in Ha as [Hs He]. split.
    + intros e Hend. rewrite Hend in He. by apply string_leb_not_gt.
    + intros s Hstart. rewrite Hstart in Hs. by apply string_leb_not_gt.
Qed.

(** The returned dictionary carries the stored [created_at]. *)
Lemma listed_as_created_at (d item : document) :
  listed_as d item ->
  Mongo.sort_key "created_at" item = Mongo.sort_key "created_at" d.
Proof.
  intros H.
  specialize (H {| announcements_collection := [];
                   teachers_collection := [] |}).
  revert H. unfold announcement_item, Mongo.sort_key. run.
  destruct (d !! "_id"); [|done]. run.
  destruct (d !! "message"); [|done]. run.
  destruct (d !! "end_date"); [|done]. run.
  destruct (d !! "created_by"); [|done]. run.
  destruct (d !! "created_at"); [|done]. run.
  intros [= <-]. by simplify_map_eq.
Qed.

Lemma newest_first_items (listed items : list document) :
  Forall2 listed_as listed items ->
  StronglySorted newest_first listed -> StronglySorted newest_first items.
Proof.
  induction 1 as [|d item listed items Hd Hrest IH]; [constructor|].
  intros Hs. apply StronglySorted_inv in Hs as [Hs Hhd].
  constructor; [by apply IH|].
  clear IH Hs. induction Hrest as [|d' item' l l' Hd' _ IH]; [constructor|].
  apply Forall_cons in Hhd as [Hhd Htl]. constructor; [|by apply IH].
  unfold newest_first in *.
  by rewrite (listed_as_created_at d item), (listed_as_created_at d' item').
Qed.


(** *** A null [start_date] *)

(** [announcement_item] reads its argument only. *)
Lemma announcement_item_pure (d : document) (db db' : database) :
  announcement_item d db = (fst (announcement_item d db'), db).
Proof.
  unfold announcement_item. run.
  destruct (d !! "_id"); [|done]. run.
  destruct (d !! "message"); [|done]. run.
  destruct (d !! "end_date"); [|done]. run.
  destruct (d !! "created_by"); [|done]. run.
  destruct (d !! "created_at"); done.
Qed.

Lemma for_each_pure (l : list document) (db db' : database) :
  for_each announcement_item l db
  = (fst (for_each announcement_item l db'), db).
Proof.
  induction l as [|d l IH]; [done|]. cbn [for_each]. run.
  rewrite (announcement_item_pure d db db'), (announcement_item_pure d db' db').
  destruct (fst (announcement_item d db')); [|done].
  rewrite IH. clear IH.
  destruct (for_each announcement_item l db') as [[items|e] db1]; done.
Qed.

Lemma same_listing_refl (T : string) (d : document) : same_listing T d d.
Proof. by repeat split. Qed.

Lemma same_listing_find (T : string) (l l' : list document) :
  Forall2 (same_listing T) l l' ->
  Forall2 (same_listing T)
    (Mongo.find (active_filter T) l) (Mongo.find (active_filter T) l').
Proof.
  unfold Mongo.find.
  induction 1 as [|d d' l l' Hd _ IH]; [constructor|].
  cbn [List.filter]. pose proof Hd as (Hm & _). rewrite <- Hm.
  destruct (Mongo.matches (active_filter T) d); [|done].
  by constructor.
Qed.

Lemma same_listing_insert (T : string) (d d' : document)
  (l l' : list document) :
  same_listing T d d' ->
  Forall2 (same_listing T) l l' ->
  Forall2 (same_listing T)
    (Mongo.insert_desc "created_at" d l) (Mongo.insert_desc "created_at" d' l').
Proof.
  intros Hd. induction 1 as [|e e' l l' He Hl IH]; cbn [Mongo.insert_desc].
  - constructor; [done | constructor].
  - pose proof Hd as (_ & Hdk & _). pose proof He as (_ & Hek & _).
    rewrite <- Hdk, <- Hek.
    destruct (Mongo.leb _ _).
    + constructor; [done|]. by constructor.
    + by constructor.
Qed.

Lemma same_listing_sort (T : string) (l l' : list document) :
  Forall2 (same_listing T) l l' ->
  Forall2 (same_listing T)
    (Mongo.sort_desc "created_at" l) (Mongo.sort_desc "created_at" l').
Proof.
  induction 1 as [|d d' l l' Hd _ IH]; [constructor|].
  cbn [Mongo.sort_desc]. by apply same_listing_insert.
Qed.

(** Dropping a null [start_date] gives a document the listing cannot tell
    from the original. *)
Lemma same_listing_null (T : string) (d : document) :
  d !! "start_date" = Some VNone ->
  same_listing T d (delete "start_date" d).
Proof.
  intros Hs. split; [|split].
  - rewrite !matches_active_filter. unfold is_active.
    by rewrite Hs, lookup_delete_eq, lookup_delete_ne.
  - unfold Mongo.sort_key. by rewrite lookup_delete_ne.
  - intros db. apply announcement_item_ext.
    + repeat constructor; by rewrite lookup_delete_ne.
    + unfold get. by rewrite Hs, lookup_delete_eq.
Qed.

(** C9.  A stored announcement whose [start_date] is present and null is
    listed by [get_active_announcements] exactly as if the field were
    absent: the answer is the one given for the store where the field has
    been dropped from that record, and whenever the record's [end_date] is
    at least the current time the listing returns its item, which holds
    the record's identifier, message, [end_date], [created_by] and
    [created_at], and a null [start_date]. *)
Theorem null_start_date_as_absent (utcnow : string) (db : database)
  (before after : list document) (A : document) :
  announcements_collection db = (before ++ A :: after)%list ->
  A !! "start_date" = Some VNone ->
  fst (get_active_announcements utcnow db)
  = fst (get_active_announcements utcnow
           (with_announcements (before ++ delete "start_date" A :: after) db))
  /\ (forall e,
        Forall listable (announcements_collection db) ->
        A !! "end_date" = Some (VStr e) ->
        String.leb (utcnow ++ "Z") e = true ->
        exists items id,
          get_active_announcements utcnow db = (Returns items, db)
          /\ A !! "_id" = Some id
          /\ ({[ "id" := VStr (py_str id);
                 "message" := get A "message";
                 "start_date" := VNone;
                 "end_date" := VStr e;
                 "created_by" := get A "created_by";
                 "created_at" := get A "created_at" ]} : document) ∈ items).
Proof.
  intros Hc Hs. split.
  - unfold get_active_announcements. run.
    cbn [announcements_collection with_announcements]. rewrite Hc.
    rewrite (for_each_pure _ (with_announcements _ db) db). cbn [fst].
    f_equal. apply for_each_ext.
    eapply Forall2_impl.
    + apply same_listing_sort, same_listing_find.
      apply Forall2_app; [|constructor].
      * apply Forall_Forall2_diag, Forall_forall. intros d _.
        apply same_listing_refl.
      * apply same_listing_null, Hs.
      * apply Forall_Forall2_diag, Forall_forall. intros d _.
        apply same_listing_refl.
    + by intros d d' (_ & _ & Hi).
  - intros e Hl He Hle.
    assert (HA : A ∈ Mongo.sort_desc "created_at"
                   (Mongo.find (active_filter (utcnow ++ "Z"))
                      (announcements_collection db))).
    { apply sort_desc_elem_of, find_active. split.
      - rewrite Hc. apply elem_of_app. right. left.
      - unfold is_active. by rewrite Hs, He, Hle. }
    assert (Hid : is_Some (A !! "_id")).
    { rewrite Forall_forall in Hl.
      assert (HAl : listable A).
      { apply Hl. rewrite Hc. apply elem_of_app. right. left. }
      unfold listable in HAl. by apply Forall_cons in HAl as [? _]. }
    destruct Hid as [id Hid].
    eexists _, id. split; [by apply get_active_announcements_items|].
    split; [exact Hid|].
    replace ({[ "id" := VStr (py_str id);
                "message" := get A "message";
                "start_date" := VNone;
                "end_date" := VStr e;
                "created_by" := get A "created_by";
                "created_at" := get A "created_at" ]} : document)
      with (item_of A).
    + by apply (list_elem_of_fmap_2 item_of).
    + unfold item_of, get at 1 3 4. by rewrite Hid, Hs, He.
Qed.

(** ** Writing endpoints: what a successful call does *)

(** The document [create_announcement] hands to [insert_one]. *)
Lemma announcement_data_no_id (utcnow message end_date username : string)
  (start_date : option string) :
  let announcement_data : document :=
    {[ "message" := VStr (strip message);
       "end_date" := VStr end_date;
       "created_by" := VStr username;
       "created_at" := VStr (utcnow ++ "Z") ]} in
  (if Py.truthy_opt start_date
   then <["start_date" := VStr (default "" start_date)]> announcement_data
   else announcement_data) !! "_id" = None.
Proof. intros d. subst d. by destruct (Py.truthy_opt start_date). Qed.

Lemma insert_one_eq (fresh : ObjectId) (d : document) (c : list document) :
  d !! "_id" = None ->
  Mongo.insert_one fresh d c
  = match Mongo.find_one (by_id fresh) c with
    | Some _ => None
    | None =>
        Some (VObjectId fresh, (c ++ [<["_id" := VObjectId fresh]> d])%list)
    end.
Proof.
  intros Hd. unfold Mongo.insert_one, Mongo.with_id. rewrite Hd.
  cbn zeta. by rewrite lookup_insert_eq.
Qed.

Lemma create_announcement_success (utcnow : string) (fresh : ObjectId)
  (message end_date username : string) (start_date : option string)
  (db : database) :
  authorized db username ->
  validation_failure message end_date start_date = None ->
  find_by_id fresh db = None ->
  let announcement_data : document :=
    {[ "message" := VStr (strip message);
       "end_date" := VStr end_date;
       "created_by" := VStr username;
       "created_at" := VStr (utcnow ++ "Z") ]} in
  create_announcement utcnow fresh message end_date username start_date db
  = (Returns {[ "id" := VStr (ObjectId_str fresh);
                "message" := VStr "Announcement created successfully" ]},
     with_announcements
       (announcements_collection db
        ++ [<["_id" := VObjectId fresh]>
              (if Py.truthy_opt start_date
               then <["start_date" := VStr (default "" start_date)]>
                      announcement_data
               else announcement_data)])%list
       db).
Proof.
  intros Hu Hv Hfresh d. subst d. unfold find_by_id in Hfresh.
  rewrite create_announcement_eq by done. rewrite Hv. cbn zeta.
  rewrite insert_one_eq by apply announcement_data_no_id.
  by rewrite Hfresh.
Qed.

(** A call that returns was authorized, passed validation and drew an
    identifier not in the store. *)
Lemma create_announcement_Returns (utcnow : string) (fresh : ObjectId)
  (message end_date username : string) (start_date : option string)
  (db db' : database) (r : document) :
  create_announcement utcnow fresh message end_date username start_date db
  = (Returns r, db') ->
  authorized db username
  /\ validation_failure message end_date start_date = None
  /\ find_by_id fresh db = None.
Proof.
  intros H.
  assert (Hu : authorized db username).
  { destruct (verify_authenticated_user username db) as [[u|e] db1] eqn:E;
      apply verify_authenticated_user_unchanged in E as Hdb; subst db1.
    - by exists u.
    - by rewrite (create_announcement_unauthorized _ _ _ _ _ _ _ e) in H. }
  split; [done|]. rewrite create_announcement_eq in H by done.
  destruct (validation_failure message end_date start_date); [done|].
  split; [done|]. cbn zeta in H.
  rewrite insert_one_eq in H by apply announcement_data_no_id.
  unfold find_by_id. by destruct (Mongo.find_one (by_id fresh) _).
Qed.

(** Neither update of [update_announcement] touches [_id], so the record
    stays the one its identifier finds. *)
Lemma matches_by_id_set (o : ObjectId) (fields d : document) :
  fields !! "_id" = None ->
  Mongo.matches (by_id o) (Mongo.apply_update (Mongo.Set_ fields) d)
  = Mongo.matches (by_id o) d.
Proof.
  intros H. rewrite !matches_by_id. cbn [Mongo.apply_update].
  by rewrite lookup_union_r.
Qed.

Lemma matches_by_id_unset (o : ObjectId) (fields d : document) :
  fields !! "_id" = None ->
  Mongo.matches (by_id o) (Mongo.apply_update (Mongo.Unset fields) d)
  = Mongo.matches (by_id o) d.
Proof.
  intros H. rewrite !matches_by_id. cbn [Mongo.apply_update].
  by rewrite lookup_difference, H.
Qed.

Lemma update_announcement_success (announcement_id message end_date
  username : string) (start_date : option string) (db : database)
  (o : ObjectId) (A : document) :
  authorized db username ->
  ObjectId_of_str announcement_id = Some o ->
  find_by_id o db = Some A ->
  validation_failure message end_date start_date = None ->
  exists before after,
    announcements_collection db = (before ++ A :: after)%list
    /\ Forall (fun d => Mongo.matches (by_id o) d = false) before
    /\ Mongo.matches (by_id o) (updated message end_date start_date A) = true
    /\ update_announcement announcement_id message end_date username
         start_date db
       = (Returns {[ "message" := VStr "Announcement updated successfully" ]},
          with_announcements
            (before ++ updated message end_date start_date A :: after)%list db).
Proof.
  intros Hu Ho HA Hv. rewrite update_announcement_eq by done.
  rewrite Ho, HA, Hv. cbn zeta. unfold find_by_id in HA.
  apply find_one_Some in HA as (before & after & Hc & Hm & Hb).
  exists before, after. rewrite Hc. unfold updated.
  split; [done|]. split; [done|].
  destruct (Py.truthy_opt start_date).
  - split.
    + change (?f ∪ A) with (Mongo.apply_update (Mongo.Set_ f) A).
      by rewrite matches_by_id_set.
    + by rewrite update_one_first.
  - assert (Hm' : Mongo.matches (by_id o)
                    (Mongo.apply_update
                       (Mongo.Unset {[ "start_date" := VStr "" ]}) A) = true)
      by by rewrite matches_by_id_unset.
    split.
    + change (?f ∪ ?B) with (Mongo.apply_update (Mongo.Set_ f) B).
      by rewrite matches_by_id_set.
    + rewrite (update_one_first _ (Mongo.Unset _)) by done.
      by rewrite update_one_first.
Qed.

(** A call that returns was authorized, named an existing record and passed
    validation. *)
Lemma update_announcement_Returns (announcement_id message end_date
  username : string) (start_date : option string) (db db' : database)
  (r : document) :
  update_announcement announcement_id message end_date username start_date db
  = (Returns r, db') ->
  authorized db username
  /\ validation_failure message end_date start_date = None
  /\ exists o A, ObjectId_of_str announcement_id = Some o
                 /\ find_by_id o db = Some A.
Proof.
  intros H.
  assert (Hu : authorized db username).
  { destruct (verify_authenticated_user username db) as [[u|e] db1] eqn:E;
      apply verify_authenticated_user_unchanged in E as Hdb; subst db1.
    - by exists u.
    - by rewrite (update_announcement_unauthorized _ _ _ _ _ _ e) in H. }
  split; [done|]. rewrite update_announcement_eq in H by done.
  destruct (ObjectId_of_str announcement_id) as [o|]; [|done].
  destruct (find_by_id o db) as [A|] eqn:EA; [|done].
  destruct (validation_failure message end_date start_date); [done|].
  split; [done|]. by exists o, A.
Qed.

(** The fields of the updated record. *)
Lemma updated_lookup (message end_date : string) (start_date : option string)
  (A : document) (k : string) :
  updated message end_date start_date A !! k
  = if String.eqb k "message" then Some (VStr (strip message))
    else if String.eqb k "end_date" then Some (VStr end_date)
    else if String.eqb k "start_date"
    then if Py.truthy_opt start_date
         then Some (VStr (default "" start_date)) else None
    else A !! k.
Proof.
  unfold updated.
  destruct (String.eqb_spec k "message") as [->|Hm];
    [|destruct (String.eqb_spec k "end_date") as [->|He];
      [|destruct (String.eqb_spec k "start_date") as [->|Hs]]];
    destruct (Py.truthy_opt start_date);
    rewrite lookup_union, ?lookup_difference, ?lookup_insert,
      ?lookup_singleton;
    repeat case_decide; try done; by destruct (A !! _).
Qed.

(** ** Validation *)

Lemma verify_cases (db : database) (username : string) :
  authorized db username
  \/ exists e, verify_authenticated_user username db = (Raises e, db).
Proof.
  destruct (verify_authenticated_user username db) as [[u|e] db1] eqn:E;
    apply verify_authenticated_user_unchanged in E as Hdb; subst db1.
  - left. by exists u.
  - right. by exists e.
Qed.

Lemma rejected_validation_failure (message end_date : string)
  (start_date : option string) :
  rejected message end_date start_date <->
  is_Some (validation_failure message end_date start_date).
Proof.
  unfold rejected, validation_failure. rewrite !is_Some_bool.
  destruct (String.eqb_spec (strip message) "") as [Hm|Hm].
  { split; [eauto | by left]. }
  destruct (String.eqb_spec end_date "") as [He|He].
  { split; [eauto | by right; left]. }
  destruct (fromisoformat (Py.replace "Z" "+00:00" end_date)) as [d|] eqn:Ed;
    cbn [negb].
  2: { split; [eauto | by right; right; left]. }
  destruct start_date as [s|].
  - destruct (String.eqb_spec s "") as [Hs|Hs]; cbn [negb andb].
    + split; [|by intros [? ?]].
      intros [?|[?|[?|(s' & [= <-] & ? & _)]]]; done.
    + destruct (fromisoformat (Py.replace "Z" "+00:00" s)) eqn:Es; cbn [negb].
      * split; [|by intros [? ?]].
        intros [?|[?|[?|(s' & [= <-] & _ & ?)]]]; congruence.
      * split; [eauto|]. intros _. right; right; right. by exists s.
  - split; [|by intros [? ?]].
    intros [?|[?|[?|(s' & ? & _)]]]; done.
Qed.

(** C3.  When the input of [create_announcement] or [update_announcement]
    fails validation (empty trimmed message, missing or malformed
    [end_date], malformed non-empty [start_date], and for the update also a
    malformed identifier or one that names no record), the call raises and
    the store is the one it started from: nothing is inserted and no record
    is changed. *)
Theorem rejected_input_no_mutation (utcnow : string) (fresh : ObjectId)
  (announcement_id message end_date username : string)
  (start_date : option string) (db : database) :
  (rejected message end_date start_date ->
   exists e,
     create_announcement utcnow fresh message end_date username start_date db
     = (Raises e, db))
  /\ (rejected message end_date start_date
      \/ ObjectId_of_str announcement_id = None
      \/ (exists o, ObjectId_of_str announcement_id = Some o
                    /\ find_by_id o db = None) ->
      exists e,
        update_announcement announcement_id message end_date username
          start_date db
        = (Raises e, db)).
Proof.
  split.
  - intros [e He]%rejected_validation_failure.
    destruct (verify_cases db username) as [Hu|[e' He']].
    + exists e. by rewrite create_announcement_eq, He.
    + exists e'. by apply create_announcement_unauthorized.
  - intros Hbad.
    destruct (verify_cases db username) as [Hu|[e' He']].
    2: { exists e'. by apply update_announcement_unauthorized. }
    rewrite update_announcement_eq by done.
    destruct Hbad as [[e He]%rejected_validation_failure|[Hid|(o & Ho & Hnone)]].
    + rewrite He. destruct (ObjectId_of_str announcement_id); [|eauto].
      destruct (find_by_id _ db); eauto.
    + rewrite Hid. eauto.
    + rewrite Ho, Hnone. eauto.
Qed.

(** C5.  For an authorized requester, [create_announcement] applies rules 1
    to 4 in the order of [validation_failure]: the first rule that fails
    decides the outcome, which is an [HTTPException] of status 400 raised
    with the store untouched; when all four pass no status 400 is raised.
    [update_announcement], once the identifier names a record, applies the
    same rules with the same outcomes. *)
Theorem validation_in_order (utcnow : string) (fresh : ObjectId)
  (announcement_id message end_date username : string)
  (start_date : option string) (db : database) :
  authorized db username ->
  (forall e,
     validation_failure message end_date start_date = Some e ->
     (exists detail, e = HTTPException 400 detail)
     /\ create_announcement utcnow fresh message end_date username
          start_date db = (Raises e, db)
     /\ (forall o, ObjectId_of_str announcement_id = Some o ->
                   is_Some (find_by_id o db) ->
                   update_announcement announcement_id message end_date
                     username start_date db = (Raises e, db)))
  /\ (validation_failure message end_date start_date = None ->
      (forall detail,
         fst (create_announcement utcnow fresh message end_date username
                start_date db) <> Raises (HTTPException 400 detail))
      /\ (forall o, ObjectId_of_str announcement_id = Some o ->
                    is_Some (find_by_id o db) ->
                    exists r db',
                      update_announcement announcement_id message end_date
                        username start_date db = (Returns r, db'))).
Proof.
  intros Hu. split.
  - intros e He. split; [|split].
    + revert He. unfold validation_failure.
      repeat case_match; intros [= <-]; eauto.
    + by rewrite create_announcement_eq, He.
    + intros o Ho [A HA]. by rewrite update_announcement_eq, Ho, HA, He.
  - intros Hv. split.
    + intros detail. rewrite create_announcement_eq, Hv by done. cbn zeta.
      by destruct (Mongo.insert_one _ _ _) as [[i c]|].
    + intros o Ho [A HA].
      destruct (update_announcement_success announcement_id message end_date
                  username start_date db o A Hu Ho HA Hv)
        as (before & after & _ & _ & _ & Hrun).
      eauto.
Qed.

(** ** Successful writes *)




(** C2.  A valid [update_announcement] call without [start_date]
    (authorized requester, identifier of an existing record, rules 1 to 3
    passed) changes that record only.  Afterwards the record has no
    [start_date] field, its [message] is the trimmed new message, its
    [end_date] is the new one, and every other field, [_id], [created_by]
    and [created_at] among them, is as it was. *)
Theorem update_announcement_unsets_start_date (announcement_id message
  end_date username : string) (db : database) (o : ObjectId) (A : document) :
  authorized db username ->
  ObjectId_of_str announcement_id = Some o ->
  find_by_id o db = Some A ->
  validation_failure message end_date None = None ->
  exists (before after : list document) (A' : document) (db' : database),
    update_announcement announcement_id message end_date username None db
    = (Returns {[ "message" := VStr "Announcement updated successfully" ]},
       db')
    /\ announcements_collection db = (before ++ A :: after)%list
    /\ announcements_collection db' = (before ++ A' :: after)%list
    /\ teachers_collection db' = teachers_collection db
    /\ find_by_id o db' = Some A'
    /\ A' !! "start_date" = None
    /\ A' !! "message" = Some (VStr (strip message))
    /\ A' !! "end_date" = Some (VStr end_date)
    /\ A' !! "_id" = A !! "_id"
    /\ A' !! "created_by" = A !! "created_by"
    /\ A' !! "created_at" = A !! "created_at"
    /\ (forall k, k ∉ ["message"; "end_date"; "start_date"] ->
                  A' !! k = A !! k).
Proof.
  intros Hu Ho HA Hv.
  destruct (update_announcement_success announcement_id message end_date
              username None db o A Hu Ho HA Hv)
    as (before & after & Hc & Hb & Hm & Hrun).
  exists before, after, (updated message end_date None A). eexists.
  split; [exact Hrun|]. split; [exact Hc|]. split; [done|]. split; [done|].
  split.
  { apply find_one_Some. by exists before, after. }
  repeat split; try by rewrite updated_lookup.
  intros k Hk. rewrite updated_lookup.
  destruct (String.eqb_spec k "message") as [->|_];
    [exfalso; apply Hk; set_solver|].
  destruct (String.eqb_spec k "end_date") as [->|_];
    [exfalso; apply Hk; set_solver|].
  destruct (String.eqb_spec k "start_date") as [->|_];
    [exfalso; apply Hk; set_solver|].
  done.
Qed.

(** C7.  For an authorized requester, [delete_announcement] raises status
    400 on an identifier [ObjectId] rejects, and status 404 on a well-formed
    identifier that names no record, leaving the store as it is.  When the
    identifier names a record, that record is removed and nothing else
    changes; with [_id] a unique key, looking the identifier up afterwards
    finds nothing and deleting it again raises status 404. *)
Theorem delete_announcement_spec (announcement_id username : string)
  (db : database) :
  authorized db username ->
  (ObjectId_of_str announcement_id = None ->
   delete_announcement announcement_id username db
   = (Raises (HTTPException 400 "Invalid announcement ID"), db))
  /\ (forall o,
        ObjectId_of_str announcement_id = Some o ->
        find_by_id o db = None ->
        delete_announcement announcement_id username db
        = (Raises (HTTPException 404 "Announcement not found"), db))
  /\ (forall o A,
        ObjectId_of_str announcement_id = Some o ->
        find_by_id o db = Some A ->
        unique_ids (announcements_collection db) ->
        exists (before after : list document) (db' : database),
          delete_announcement announcement_id username db
          = (Returns {[ "message" := VStr "Announcement deleted successfully" ]},
             db')
          /\ announcements_collection db = (before ++ A :: after)%list
          /\ announcements_collection db' = (before ++ after)%list
          /\ teachers_collection db' = teachers_collection db
          /\ find_by_id o db' = None
          /\ delete_announcement announcement_id username db'
             = (Raises (HTTPException 404 "Announcement not found"), db')).
Proof.
  intros Hu. split; [|split].
  - intros Hid. by rewrite delete_announcement_eq, Hid.
  - intros o Ho Hnone. rewrite delete_announcement_eq, Ho by done.
    unfold find_by_id in Hnone. apply find_one_None in Hnone.
    rewrite delete_one_None by done. cbn [Nat.eqb].
    by rewrite with_announcements_same.
  - intros o A Ho HA Huniq. unfold find_by_id in HA.
    apply find_one_Some in HA as (before & after & Hc & Hm & Hb).
    assert (Hgone : Forall (fun d => Mongo.matches (by_id o) d = false)
                      (before ++ after)%list).
    { rewrite Hc in Huniq. by eapply unique_ids_after. }
    exists before, after, (with_announcements (before ++ after)%list db).
    split; [|split; [done|split; [done|split; [done|split]]]].
    + rewrite delete_announcement_eq, Ho, Hc by done.
      by rewrite delete_one_first.
    + by apply find_one_None.
    + rewrite delete_announcement_eq, Ho
        by by apply authorized_with_announcements.
      cbn [announcements_collection with_announcements].
      by rewrite delete_one_None.
Qed.

(** C10.  An empty [start_date] is an omitted one: [create_announcement]
    and [update_announcement] give the same outcome and the same store for
    [start_date = ""] as for no [start_date], and rule 4 is not applied to
    it.  A valid create call with [start_date = ""] returns and stores a
    record without [start_date] field; a valid update call with
    [start_date = ""] (authorized requester, identifier of a stored record,
    rules 1 to 3 passed) returns, and the record found under the
    identifier afterwards has no [start_date] field, whatever it had
    before. *)
Theorem empty_start_date_as_omitted (utcnow : string) (fresh : ObjectId)
  (announcement_id message end_date username : string) (db : database) :
  create_announcement utcnow fresh message end_date username (Some "") db
  = create_announcement utcnow fresh message end_date username None db
  /\ update_announcement announcement_id message end_date username (Some "") db
     = update_announcement announcement_id message end_date username None db
  /\ validation_failure message end_date (Some "")
     = validation_failure message end_date None
  /\ (forall r db',
        create_announcement utcnow fresh message end_date username (Some "") db
        = (Returns r, db') ->
        exists A : document,
          announcements_collection db'
          = (announcements_collection db ++ [A])%list
          /\ A !! "start_date" = None)
  /\ (forall r db' o,
        update_announcement announcement_id message end_date username
          (Some "") db = (Returns r, db') ->
        ObjectId_of_str announcement_id = Some o ->
        exists A' : document,
          find_by_id o db' = Some A' /\ A' !! "start_date" = None)
  /\ (authorized db username ->
      validation_failure message end_date None = None ->
      find_by_id fresh db = None ->
      exists (A : document) (db' : database),
        create_announcement utcnow fresh message end_date username (Some "")
          db
        = (Returns {[ "id" := VStr (ObjectId_str fresh);
                      "message" := VStr "Announcement created successfully" ]},
           db')
        /\ announcements_collection db'
           = (announcements_collection db ++ [A])%list
        /\ A !! "_id" = Some (VObjectId fresh)
        /\ A !! "start_date" = None)
  /\ (forall o A,
        authorized db username ->
        ObjectId_of_str announcement_id = Some o ->
        find_by_id o db = Some A ->
        validation_failure message end_date None = None ->
        exists (before after : list document) (A' : document)
               (db' : database),
          update_announcement announcement_id message end_date username
            (Some "") db
          = (Returns {[ "message" :=
                          VStr "Announcement updated successfully" ]},
             db')
          /\ announcements_collection db = (before ++ A :: after)%list
          /\ announcements_collection db' = (before ++ A' :: after)%list
          /\ find_by_id o db' = Some A'
          /\ A' !! "start_date" = None
          /\ A' !! "message" = Some (VStr (strip message))
          /\ A' !! "end_date" = Some (VStr end_date)
          /\ A' !! "_id" = A !! "_id").
Proof.
  split; [done|]. split; [done|]. split; [done|].
  split; [|split; [|split]].
  - intros r db' Hrun.
    destruct (create_announcement_Returns _ _ _ _ _ _ _ _ _ Hrun)
      as (Hu & Hv & Hfresh).
    rewrite (create_announcement_success _ _ _ _ _ _ _ Hu Hv Hfresh) in Hrun.
    injection Hrun as _ <-. eexists. split; [done|]. done.
  - intros r db' o Hrun Ho.
    destruct (update_announcement_Returns _ _ _ _ _ _ _ _ Hrun)
      as (Hu & Hv & o' & A & Ho' & HA).
    assert (o' = o) as -> by congruence.
    destruct (update_announcement_success _ _ _ _ _ _ _ _ Hu Ho HA Hv)
      as (before & after & Hc & Hb & Hm & Hrun').
    rewrite Hrun' in Hrun. injection Hrun as _ <-.
    exists (updated message end_date (Some "") A). split.
    + apply find_one_Some. by exists before, after.
    + by rewrite updated_lookup.
  - intros Hu Hv Hfresh. eexists _, _.
    split; [by apply (create_announcement_success utcnow fresh message
                        end_date username (Some "") db Hu)|].
    split; [done|]. split; done.
  - intros o A Hu Ho HA Hv.
    destruct (update_announcement_success announcement_id message end_date
                username (Some "") db o A Hu Ho HA Hv)
      as (before & after & Hc & Hb & Hm & Hrun).
    exists before, after, (updated message end_date (Some "") A). eexists.
    split; [exact Hrun|]. split; [exact Hc|]. split; [done|]. split.
    { apply find_one_Some. by exists before, after. }
    repeat split; by rewrite updated_lookup.
Qed.

End Router.

(** * Examples

    The theorems at the example store, with [Lib.fromisoformat] and
    [Lib.ObjectId_of_str] for the library functions. *)

Lemma example_listable :
  Forall listable (announcements_collection Example.db).
Proof. repeat constructor; vm_compute; eauto. Defined.

Lemma example_authorized : authorized Example.db "alice".
Proof.
  exists {[ "username" := VStr "alice"; "display_name" := VStr "Alice";
            "role" := VStr "teacher" ]}.
  vm_compute. reflexivity.
Defined.

Example strip_example : Py.strip " Exam tomorrow " = "Exam tomorrow".
Proof. reflexivity. Qed.

Example replace_example :
  Py.replace "Z" "+00:00" "2099-01-01T00:00:00Z" = "2099-01-01T00:00:00+00:00".
Proof. reflexivity. Qed.

Example fromisoformat_example :
  Lib.fromisoformat "2099-01-01T00:00:00+00:00"
  = Some (Lib.Build_datetime 2099 1 1 0 0 0 0 (Some 0%Z))
  /\ Lib.fromisoformat "not-a-date" = None.
Proof. split; reflexivity. Qed.

Example ObjectId_of_str_example :
  Lib.ObjectId_of_str "000000000000000000000002" = Some (Oid 2)
  /\ ObjectId_str (Oid 2) = "000000000000000000000002"
  /\ Lib.ObjectId_of_str "not-an-id" = None.
Proof. repeat split; reflexivity. Qed.

(** Alice is known: she is verified, and her role is returned as stored. *)
Lemma verify_authenticated_user_example :
  verify_authenticated_user "alice" Example.db
  = (Returns {[ "username" := VStr "alice"; "display_name" := VStr "Alice";
                "role" := VStr "teacher" ]}, Example.db).
Proof.
  apply (proj2 (proj2 (verify_authenticated_user_spec Example.db "alice"))
           Example.alice); vm_compute; congruence.
Defined.

(** The claim of C1 as the specification words it fails on a record whose
    [start_date] is null: the record is listed, yet it is not active in the
    sense of [spec_is_active]. *)
Lemma null_start_date_listed_not_spec_active :
  get_active_announcements Example.utcnow Example.db_null
  = (Returns [ {[ "id" := VStr "000000000000000000000001";
                  "message" := VStr "Old";
                  "start_date" := VNone;
                  "end_date" := VStr "2099-01-01T00:00:00Z";
                  "created_by" := VStr "alice";
                  "created_at" := VStr "2020-01-01T00:00:00Z" ]} ],
     Example.db_null)
  /\ announcements_collection Example.db_null = [Example.old]
  /\ Example.old !! "start_date" = Some VNone
  /\ spec_is_active (Example.utcnow ++ "Z") Example.old = false.
Proof. vm_compute. repeat split. Qed.

(** At the example store the active listing succeeds and lists no expired
    announcement. *)
Lemma get_active_announcements_active_example :
  Forall listable (announcements_collection Example.db)
  /\ exists listed,
       get_active_announcements Example.utcnow Example.db
       = (Returns (map item_of listed), Example.db)
       /\ (Example.old ∈ listed /\ Example.new ∈ listed)
       /\ Example.gone ∉ listed.
Proof.
  split; [exact example_listable|].
  destruct (get_active_announcements_active Example.utcnow Example.db
              example_listable)
    as (listed & Hrun & _ & Hin & _).
  exists listed. split; [exact Hrun|].
  split; [split|].
  - apply Hin. split; [|reflexivity]. vm_compute. left.
  - apply Hin. split; [|reflexivity]. vm_compute. right. left.
  - intros Hgone. apply Hin in Hgone as [_ Hactive]. discriminate Hactive.
Defined.


(** The first example announcement has a null [start_date] and is listed. *)
Lemma null_start_date_as_absent_example :
  Example.old !! "start_date" = Some VNone
  /\ fst (get_active_announcements Example.utcnow Example.db)
     = fst (get_active_announcements Example.utcnow
              (with_announcements
                 [delete "start_date" Example.old; Example.new; Example.gone]
                 Example.db))
  /\ exists items,
       get_active_announcements Example.utcnow Example.db
       = (Returns items, Example.db)
       /\ ({[ "id" := VStr "000000000000000000000001";
              "message" := VStr "Old";
              "start_date" := VNone;
              "end_date" := VStr "2099-01-01T00:00:00Z";
              "created_by" := VStr "alice";
              "created_at" := VStr "2020-01-01T00:00:00Z" ]} : document)
           ∈ items.
Proof.
  split; [reflexivity|].
  destruct (null_start_date_as_absent Example.utcnow Example.db []
              [Example.new; Example.gone] Example.old eq_refl eq_refl)
    as [Hsame Hlisted].
  split; [exact Hsame|].
  destruct (Hlisted "2099-01-01T00:00:00Z" example_listable eq_refl eq_refl)
    as (items & id & Hrun & Hid & Hitem).
  exists items. split; [exact Hrun|].
  injection Hid as <-. exact Hitem.
Defined.

(** The scenario of the specification: [end_date = "not-a-date"] is
    refused and nothing is stored. *)
Lemma rejected_input_no_mutation_example :
  Lib.fromisoformat (Py.replace "Z" "+00:00" "not-a-date") = None
  /\ exists e,
       create_announcement Py.strip Lib.fromisoformat Example.utcnow (Oid 77)
         " Exam tomorrow " "not-a-date" "alice" None Example.db
       = (Raises e, Example.db).
Proof.
  split; [reflexivity|].
  apply (proj1 (rejected_input_no_mutation Py.strip Lib.fromisoformat
                  Lib.ObjectId_of_str Example.utcnow (Oid 77)
                  "000000000000000000000002" " Exam tomorrow " "not-a-date"
                  "alice" None Example.db)).
  right. right. left. reflexivity.
Defined.

(** An empty message is reported before a malformed [end_date]. *)
Lemma validation_in_order_example :
  authorized Example.db "alice"
  /\ validation_failure Py.strip Lib.fromisoformat "  " "not-a-date" None
     = Some (HTTPException 400 "Message cannot be empty")
  /\ create_announcement Py.strip Lib.fromisoformat Example.utcnow (Oid 77)
       "  " "not-a-date" "alice" None Example.db
     = (Raises (HTTPException 400 "Message cannot be empty"), Example.db)
  /\ update_announcement Py.strip Lib.fromisoformat Lib.ObjectId_of_str
       "000000000000000000000002" "  " "not-a-date" "alice" None Example.db
     = (Raises (HTTPException 400 "Message cannot be empty"), Example.db).
Proof.
  split; [exact example_authorized|]. split; [reflexivity|].
  destruct (proj1 (validation_in_order Py.strip Lib.fromisoformat Lib.ObjectId_of_str
                     Example.utcnow (Oid 77) "000000000000000000000002"
                     "  " "not-a-date" "alice" None Example.db
                     example_authorized)
              (HTTPException 400 "Message cannot be empty") eq_refl)
    as (_ & Hcreate & Hupdate).
  split; [exact Hcreate|].
  apply (Hupdate (Oid 2)); [reflexivity|]. vm_compute. eauto.
Defined.


(** The scenario of the specification: a record that had
    [start_date = "2020-01-01T00:00:00Z"] has no such field after an update
    without [start_date]. *)
Lemma update_announcement_unsets_start_date_example :
  authorized Example.db "alice"
  /\ Lib.ObjectId_of_str "000000000000000000000002" = Some (Oid 2)
  /\ find_by_id (Oid 2) Example.db = Some Example.new
  /\ Example.new !! "start_date" = Some (VStr "2020-01-01T00:00:00Z")
  /\ validation_failure Py.strip Lib.fromisoformat " Exam " "2099-06-01T00:00:00Z" None
     = None
  /\ exists (A' : document) (db' : database),
       update_announcement Py.strip Lib.fromisoformat Lib.ObjectId_of_str
         "000000000000000000000002" " Exam " "2099-06-01T00:00:00Z" "alice"
         None Example.db
       = (Returns {[ "message" := VStr "Announcement updated successfully" ]},
          db')
       /\ find_by_id (Oid 2) db' = Some A'
       /\ A' !! "start_date" = None
       /\ A' !! "message" = Some (VStr "Exam").
Proof.
  split; [exact example_authorized|]. split; [reflexivity|].
  split; [reflexivity|]. split; [reflexivity|]. split; [reflexivity|].
  destruct (update_announcement_unsets_start_date Py.strip Lib.fromisoformat
              Lib.ObjectId_of_str "000000000000000000000002" " Exam "
              "2099-06-01T00:00:00Z" "alice" Example.db (Oid 2) Example.new
              example_authorized eq_refl eq_refl eq_refl)
    as (before & after & A' & db' & Hrun & _ & _ & _ & Hfind & Hstart
        & Hmessage & _).
  exists A', db'. split; [exact Hrun|]. split; [exact Hfind|].
  split; [exact Hstart | exact Hmessage].
Defined.

Lemma example_unique_ids : unique_ids (announcements_collection Example.db).
Proof. unfold unique_ids. apply (bool_decide_unpack _). vm_compute. exact I. Defined.

(** Deleting the second example announcement twice. *)
Lemma delete_announcement_spec_example :
  authorized Example.db "alice"
  /\ exists db' : database,
       delete_announcement Lib.ObjectId_of_str "000000000000000000000002"
         "alice" Example.db
       = (Returns {[ "message" := VStr "Announcement deleted successfully" ]},
          db')
       /\ find_by_id (Oid 2) db' = None
       /\ delete_announcement Lib.ObjectId_of_str "000000000000000000000002"
            "alice" db'
          = (Raises (HTTPException 404 "Announcement not found"), db').
Proof.
  split; [exact example_authorized|].
  destruct (proj2 (proj2 (delete_announcement_spec Lib.ObjectId_of_str
                            "000000000000000000000002" "alice" Example.db
                            example_authorized))
              (Oid 2) Example.new eq_refl eq_refl example_unique_ids)
    as (before & after & db' & Hrun & _ & _ & _ & Hfind & Hagain).
  exists db'. split; [exact Hrun|]. split; [exact Hfind | exact Hagain].
Defined.

(** Updating with [start_date = ""] a record that had
    [start_date = "2020-01-01T00:00:00Z"] removes the field. *)
Lemma empty_start_date_as_omitted_example :
  find_by_id (Oid 2) Example.db = Some Example.new
  /\ Example.new !! "start_date" = Some (VStr "2020-01-01T00:00:00Z")
  /\ exists (A' : document) (db' : database),
       update_announcement Py.strip Lib.fromisoformat Lib.ObjectId_of_str
         "000000000000000000000002" " Exam " "2099-06-01T00:00:00Z" "alice"
         (Some "") Example.db
       = (Returns {[ "message" := VStr "Announcement updated successfully" ]},
          db')
       /\ find_by_id (Oid 2) db' = Some A'
       /\ A' !! "start_date" = None
       /\ A' !! "message" = Some (VStr "Exam").
Proof.
  split; [reflexivity|]. split; [reflexivity|].
  destruct (proj2 (proj2 (proj2 (proj2 (proj2 (proj2
              (empty_start_date_as_omitted Py.strip Lib.fromisoformat
                 Lib.ObjectId_of_str Example.utcnow (Oid 77)
                 "000000000000000000000002" " Exam " "2099-06-01T00:00:00Z"
                 "alice" Example.db))))))
              (Oid 2) Example.new example_authorized eq_refl eq_refl eq_refl)
    as (before & after & A' & db' & Hrun & _ & _ & Hfind & Hstart & Hmessage
        & _).
  exists A', db'. split; [exact Hrun|]. split; [exact Hfind|].
  split; [exact Hstart | exact Hmessage].
Defined.

(** * Further properties of the router

    Properties of the six endpoints beyond the statements above: what a
    call leaves untouched, which failures it can raise and in which order,
    the invariants the writing endpoints keep, and how calls compose. *)

Section Further.

Context {datetime : Type}.
Variable strip : string -> string.
Variable fromisoformat : string -> option datetime.
Variable ObjectId_of_str : string -> option ObjectId.

(** ** Vocabulary *)

(** The textual argument of rules 3 and 4 is accepted by
    [datetime.fromisoformat] once every [Z] is replaced. *)
Definition parses (s : string) : Prop :=
  is_Some (fromisoformat (Py.replace "Z" "+00:00" s)).

(** The shape of a record the router writes: an [ObjectId] as [_id], a
    non-empty [message], a non-empty [end_date] that parses, strings as
    [created_by] and [created_at], and a [start_date] that is either
    absent or a non-empty string that parses. *)
Definition well_formed (d : document) : Prop :=
  (exists o, d !! "_id" = Some (VObjectId o))
  /\ (exists m, d !! "message" = Some (VStr m) /\ m <> "")
  /\ (exists e, d !! "end_date" = Some (VStr e) /\ e <> "" /\ parses e)
  /\ (exists u, d !! "created_by" = Some (VStr u))
  /\ (exists t, d !! "created_at" = Some (VStr t))
  /\ (d !! "start_date" = None
      \/ exists s, d !! "start_date" = Some (VStr s) /\ s <> "" /\ parses s).

(** One request to a writing endpoint, with the clock reading and the
    identifier the driver draws where the endpoint uses them. *)
Inductive call :=
  | Create (utcnow : string) (fresh : ObjectId)
      (message end_date username : string) (start_date : option string)
  | Update (announcement_id message end_date username : string)
      (start_date : option string)
  | Delete (announcement_id username : string).

(** The store after a request, whatever its outcome. *)
Definition after (c : call) (db : database) : database :=
  match c with
  | Create utcnow fresh message end_date username start_date =>
      snd (create_announcement strip fromisoformat utcnow fresh message end_date
             username start_date db)
  | Update announcement_id message end_date username start_date =>
      snd (update_announcement strip fromisoformat ObjectId_of_str announcement_id
             message end_date username start_date db)
  | Delete announcement_id username =>
      snd (delete_announcement ObjectId_of_str announcement_id username db)
  end.

(** The store after a sequence of requests, served in order. *)
Definition after_all (cs : list call) (db : database) : database :=
  fold_left (fun db c => after c db) cs db.

(** The fields [announcement_item] reads with [announcement[...]]. *)
Definition item_fields : list string :=
  ["_id"; "message"; "end_date"; "created_by"; "created_at"].

(** ** What a call does to the store *)

Ltac step :=
  repeat progress
    (unfold mbind, M_bind, mret, M_ret, raise, getitem, find_one_teacher,
       find_one_announcement, update_one_announcement,
       delete_one_announcement, insert_one_announcement, announcements,
       teachers, set_announcements);
  cbn beta iota zeta.

Lemma with_announcements_twice (c c' : list document) (db : database) :
  with_announcements c (with_announcements c' db) = with_announcements c db.
Proof. done. Qed.

Lemma find_app (q : Mongo.query) (l k : list document) :
  Mongo.find q (l ++ k)%list = (Mongo.find q l ++ Mongo.find q k)%list.
Proof. apply List.filter_app. Qed.

Lemma find_one_app_l (q : Mongo.query) (l k : list document) :
  Forall (fun d => Mongo.matches q d = false) k ->
  Mongo.find_one q (l ++ k)%list = Mongo.find_one q l.
Proof.
  intros Hk. unfold Mongo.find_one. rewrite find_app.
  replace (Mongo.find q k) with (@nil document); [by rewrite app_nil_r|].
  symmetry. unfold Mongo.find. induction Hk as [|d k Hd _ IH]; simpl; [done|].
  by rewrite Hd.
Qed.

(** Replacing one document by one that the filter treats alike, or
    dropping one the filter rejects, does not change what it finds
    elsewhere. *)
Lemma find_one_replace (q : Mongo.query) (before after : list document)
  (d d' : document) :
  Mongo.matches q d = false -> Mongo.matches q d' = false ->
  Mongo.find_one q (before ++ d' :: after)%list
  = Mongo.find_one q (before ++ d :: after)%list.
Proof.
  intros Hd Hd'. unfold Mongo.find_one. rewrite !find_app. unfold Mongo.find.
  simpl. by rewrite Hd, Hd'.
Qed.

Lemma find_one_drop (q : Mongo.query) (before after : list document)
  (d : document) :
  Mongo.matches q d = false ->
  Mongo.find_one q (before ++ after)%list
  = Mongo.find_one q (before ++ d :: after)%list.
Proof.
  intros Hd. unfold Mongo.find_one. rewrite !find_app. unfold Mongo.find.
  simpl. by rewrite Hd.
Qed.

Lemma delete_announcement_success (announcement_id username : string)
  (db : database) (o : ObjectId) (A : document) :
  authorized db username ->
  ObjectId_of_str announcement_id = Some o ->
  find_by_id o db = Some A ->
  exists before after,
    announcements_collection db = (before ++ A :: after)%list
    /\ Forall (fun d => Mongo.matches (by_id o) d = false) before
    /\ Mongo.matches (by_id o) A = true
    /\ delete_announcement ObjectId_of_str announcement_id username db
       = (Returns {[ "message" := VStr "Announcement deleted successfully" ]},
          with_announcements (before ++ after)%list db).
Proof.
  intros Hu Ho HA. unfold find_by_id in HA.
  apply find_one_Some in HA as (before & after & Hc & Hm & Hb).
  exists before, after. split; [done|]. split; [done|]. split; [done|].
  rewrite delete_announcement_eq, Ho, Hc by done.
  by rewrite delete_one_first.
Qed.

(** The three ways a [delete_announcement] call can end. *)
Lemma delete_announcement_cases (announcement_id username : string)
  (db : database) :
  (exists e, delete_announcement ObjectId_of_str announcement_id username db
             = (Raises e, db))
  \/ (exists o A before after,
        authorized db username
        /\ ObjectId_of_str announcement_id = Some o
        /\ find_by_id o db = Some A
        /\ announcements_collection db = (before ++ A :: after)%list
        /\ Forall (fun d => Mongo.matches (by_id o) d = false) before
        /\ Mongo.matches (by_id o) A = true
        /\ delete_announcement ObjectId_of_str announcement_id username db
           = (Returns {[ "message" :=
                           VStr "Announcement deleted successfully" ]},
              with_announcements (before ++ after)%list db)).
Proof.
  destruct (verify_cases db username) as [Hu|[e He]].
  2: { left. exists e. by apply delete_announcement_unauthorized. }
  destruct (ObjectId_of_str announcement_id) as [o|] eqn:Ho.
  2: { left. eexists. by rewrite delete_announcement_eq, Ho. }
  destruct (find_by_id o db) as [A|] eqn:HA.
  - right.
    destruct (delete_announcement_success _ _ _ _ _ Hu Ho HA)
      as (before & after & ? & ? & ? & ?).
    by exists o, A, before, after.
  - left. eexists. rewrite delete_announcement_eq, Ho by done.
    unfold find_by_id in HA. apply find_one_None in HA.
    rewrite delete_one_None by done. cbn [Nat.eqb].
    by rewrite with_announcements_same.
Qed.

(** The two ways a [create_announcement] call can end. *)
Lemma create_announcement_cases (utcnow : string) (fresh : ObjectId)
  (message end_date username : string) (start_date : option string)
  (db : database) :
  (exists e,
     create_announcement strip fromisoformat utcnow fresh message end_date username
       start_date db = (Raises e, db))
  \/ (authorized db username
      /\ validation_failure strip fromisoformat message end_date start_date = None
      /\ find_by_id fresh db = None).
Proof.
  destruct (verify_cases db username) as [Hu|[e He]].
  2: { left. exists e. by apply create_announcement_unauthorized. }
  destruct (validation_failure strip fromisoformat message end_date start_date)
    as [e|] eqn:Hv.
  { left. exists e. by rewrite create_announcement_eq, Hv. }
  destruct (find_by_id fresh db) as [A|] eqn:HA; [|by right].
  left. exists DuplicateKeyError.
  rewrite create_announcement_eq, Hv by done. cbn zeta.
  rewrite insert_one_eq by apply announcement_data_no_id.
  unfold find_by_id in HA. by rewrite HA.
Qed.

(** The two ways an [update_announcement] call can end. *)
Lemma update_announcement_cases (announcement_id message end_date
  username : string) (start_date : option string) (db : database) :
  (exists e,
     update_announcement strip fromisoformat ObjectId_of_str announcement_id message
       end_date username start_date db = (Raises e, db))
  \/ (exists o A,
        authorized db username
        /\ ObjectId_of_str announcement_id = Some o
        /\ find_by_id o db = Some A
        /\ validation_failure strip fromisoformat message end_date start_date
           = None).
Proof.
  destruct (verify_cases db username) as [Hu|[e He]].
  2: { left. exists e. by apply update_announcement_unauthorized. }
  destruct (ObjectId_of_str announcement_id) as [o|] eqn:Ho.
  2: { left. eexists. by rewrite update_announcement_eq, Ho. }
  destruct (find_by_id o db) as [A|] eqn:HA.
  2: { left. eexists. by rewrite update_announcement_eq, Ho, HA. }
  destruct (validation_failure strip fromisoformat message end_date start_date)
    as [e|] eqn:Hv.
  { left. exists e. by rewrite update_announcement_eq, Ho, HA, Hv. }
  right. by exists o, A.
Qed.

(** X1.  The two listings only read: whatever the requester, the clock and
    the stored documents, and also when the call raises, the store after
    [get_active_announcements] or [get_all_announcements] is the store
    before. *)
Theorem listings_read_only (utcnow username : string) (db : database) :
  snd (get_active_announcements utcnow db) = db
  /\ snd (get_all_announcements username db) = db.
Proof.
  split.
  - unfold get_active_announcements. step.
    by rewrite (for_each_pure _ db db).
  - unfold get_all_announcements. step.
    destruct (verify_cases db username) as [[u Hu]|[e He]].
    + rewrite Hu. by rewrite (for_each_pure _ db db).
    + by rewrite He.
Qed.


(** X3.  No endpoint writes the teachers collection: after any call, with
    any outcome, it is what it was, so a requester who was authorized
    before a call is authorized after it. *)
Theorem teachers_never_written (c : call) (db : database) (username : string) :
  teachers_collection (after c db) = teachers_collection db
  /\ (authorized db username -> authorized (after c db) username).
Proof.
  assert (H : after c db = db
              \/ exists l, after c db = with_announcements l db).
  { destruct c as [utcnow fresh message end_date user start_date
                  |announcement_id message end_date user start_date
                  |announcement_id user]; cbn [after].
    - destruct (create_announcement_cases utcnow fresh message end_date user
                  start_date db) as [[e He]|(Hu & Hv & Hfresh)].
      + left. by rewrite He.
      + right. eexists.
        by rewrite (create_announcement_success strip fromisoformat _ _ _ _ _ _ _
                      Hu Hv Hfresh).
    - destruct (update_announcement_cases announcement_id message end_date
                  user start_date db) as [[e He]|(o & A & Hu & Ho & HA & Hv)].
      + left. by rewrite He.
      + destruct (update_announcement_success strip fromisoformat ObjectId_of_str
                    _ _ _ _ _ _ _ _ Hu Ho HA Hv) as (? & ? & _ & _ & _ & Hok).
        right. eexists. by rewrite Hok.
    - destruct (delete_announcement_cases announcement_id user db)
        as [[e He]|(o & A & b & a & _ & _ & _ & _ & _ & _ & Hok)].
      + left. by rewrite He.
      + right. eexists. by rewrite Hok. }
  destruct H as [->|[l ->]]; [done|]. split; [done|].
  apply authorized_with_announcements.
Qed.

(** ** Failures *)

(** [announcement_item] returns for a listable record and raises
    [KeyError] on the first of the five fields that is missing. *)
Lemma announcement_item_cases (d : document) :
  (listable d /\ exists item, listed_as d item)
  \/ (~ listable d
      /\ exists k, k ∈ item_fields
                   /\ forall db,
                        announcement_item d db = (Raises (KeyError k), db)).
Proof.
  unfold listable, listed_as, item_fields, announcement_item.
  destruct (d !! "_id") as [id|] eqn:Hid.
  2: { right. split.
       - rewrite Forall_cons, Hid. by intros [[? ?] _].
       - exists "_id". split; [set_solver|]. intros db. step. by rewrite Hid. }
  destruct (d !! "message") as [m|] eqn:Hm.
  2: { right. split.
       - rewrite !Forall_cons, Hm. by intros (_ & [? ?] & _).
       - exists "message". split; [set_solver|]. intros db. step.
         rewrite Hid. step. by rewrite Hm. }
  destruct (d !! "end_date") as [e|] eqn:He.
  2: { right. split.
       - rewrite !Forall_cons, He. by intros (_ & _ & [? ?] & _).
       - exists "end_date". split; [set_solver|]. intros db. step.
         rewrite Hid. step. rewrite Hm. step. by rewrite He. }
  destruct (d !! "created_by") as [cb|] eqn:Hcb.
  2: { right. split.
       - rewrite !Forall_cons, Hcb. by intros (_ & _ & _ & [? ?] & _).
       - exists "created_by". split; [set_solver|]. intros db. step.
         rewrite Hid. step. rewrite Hm. step. rewrite He. step.
         by rewrite Hcb. }
  destruct (d !! "created_at") as [ca|] eqn:Hca.
  2: { right. split.
       - rewrite !Forall_cons, Hca. by intros (_ & _ & _ & _ & [? ?] & _).
       - exists "created_at". split; [set_solver|]. intros db. step.
         rewrite Hid. step. rewrite Hm. step. rewrite He. step.
         rewrite Hcb. step. by rewrite Hca. }
  left. split.
  - rewrite !Forall_cons, Hid, Hm, He, Hcb, Hca. eauto 10.
  - eexists. intros db. step. rewrite Hid. step. rewrite Hm. step.
    rewrite He. step. rewrite Hcb. step. rewrite Hca. step. reflexivity.
Qed.

(** The loop of a listing returns when every record it visits is listable
    and raises [KeyError] otherwise; it returns no partial list. *)
Lemma for_each_cases (l : list document) (db : database) :
  (Forall listable l
   /\ exists items, for_each announcement_item l db = (Returns items, db)
                    /\ Forall2 listed_as l items)
  \/ (~ Forall listable l
      /\ exists k, k ∈ item_fields
                   /\ for_each announcement_item l db
                      = (Raises (KeyError k), db)).
Proof.
  induction l as [|d l IH].
  - left. split; [constructor|]. exists []. split; [done|constructor].
  - cbn [for_each]. step.
    destruct (announcement_item_cases d) as [[Hd [item Hitem]]|(Hd & k & Hk & Hraise)].
    + rewrite Hitem.
      destruct IH as [(Hl & items & Hrun & Hitems)|(Hl & k & Hk & Hraise)].
      * left. split; [by constructor|]. exists (item :: items).
        rewrite Hrun. split; [done|by constructor].
      * right. split; [by intros [_ ?]%Forall_cons|].
        exists k. split; [done|]. by rewrite Hraise.
    + right. split; [by intros [? _]%Forall_cons|].
      exists k. split; [done|]. by rewrite Hraise.
Qed.

(** What [verify_authenticated_user] can raise. *)
Lemma verify_authenticated_user_raises (username : string) (db db' : database)
  (e : exn) :
  verify_authenticated_user username db = (Raises e, db') ->
  (exists detail, e = HTTPException 401 detail) \/ (exists k, e = KeyError k).
Proof.
  rewrite verify_authenticated_user_eq.
  repeat case_match; intros [= <- _]; eauto.
Qed.

Lemma validation_failure_400 (message end_date : string)
  (start_date : option string) (e : exn) :
  validation_failure strip fromisoformat message end_date start_date = Some e ->
  exists detail, e = HTTPException 400 detail.
Proof.
  unfold validation_failure. repeat case_match; intros [= <-]; eauto.
Qed.

(** X4.  The HTTP statuses each endpoint can raise.
    [get_active_announcements] raises no [HTTPException] at all;
    [get_all_announcements] raises none but 401; [create_announcement]
    none but 400 and 401; [update_announcement] and [delete_announcement]
    none but 400, 401 and 404. *)
Theorem raised_statuses (utcnow : string) (fresh : ObjectId)
  (announcement_id message end_date username : string)
  (start_date : option string) (db : database) (status : Z) (detail : string) :
  fst (get_active_announcements utcnow db)
  <> Raises (HTTPException status detail)
  /\ (fst (get_all_announcements username db)
      = Raises (HTTPException status detail) -> status = 401%Z)
  /\ (fst (create_announcement strip fromisoformat utcnow fresh message end_date
             username start_date db)
      = Raises (HTTPException status detail) ->
      status = 400%Z \/ status = 401%Z)
  /\ (fst (update_announcement strip fromisoformat ObjectId_of_str announcement_id
             message end_date username start_date db)
      = Raises (HTTPException status detail) ->
      status = 400%Z \/ status = 401%Z \/ status = 404%Z)
  /\ (fst (delete_announcement ObjectId_of_str announcement_id username db)
      = Raises (HTTPException status detail) ->
      status = 400%Z \/ status = 401%Z \/ status = 404%Z).
Proof.
  assert (Hverify : forall e,
    verify_authenticated_user username db = (Raises e, db) ->
    e = HTTPException status detail -> status = 401%Z).
  { intros e He ->.
    apply verify_authenticated_user_raises in He as [[? [= -> _]]|[? [=]]].
    done. }
  split; [|split; [|split; [|split]]].
  - unfold get_active_announcements. step.
    destruct (for_each_cases
                (Mongo.sort_desc "created_at"
                   (Mongo.find (active_filter (utcnow ++ "Z"))
                      (announcements_collection db))) db)
      as [(_ & items & -> & _)|(_ & k & _ & ->)]; done.
  - unfold get_all_announcements. step.
    destruct (verify_cases db username) as [[u Hu]|[e He]].
    + rewrite Hu.
      destruct (for_each_cases
                  (Mongo.sort_desc "created_at"
                     (Mongo.find (Mongo.All [])
                        (announcements_collection db))) db)
        as [(_ & items & -> & _)|(_ & k & _ & ->)]; done.
    + rewrite He. cbn [fst]. intros [= Heq]. by apply (Hverify e).
  - destruct (verify_cases db username) as [Hu|[e He]].
    + rewrite create_announcement_eq by done.
      destruct (validation_failure strip fromisoformat message end_date start_date)
        as [e|] eqn:Hv.
      * apply validation_failure_400 in Hv as [d ->]. intros [= -> _].
        by left.
      * cbn zeta. by destruct (Mongo.insert_one _ _ _) as [[i c]|].
    + rewrite (create_announcement_unauthorized strip _ _ _ _ _ _ _ _ e He).
      intros [= Heq]. right. by apply (Hverify e).
  - destruct (verify_cases db username) as [Hu|[e He]].
    + rewrite update_announcement_eq by done.
      destruct (ObjectId_of_str announcement_id) as [o|];
        [|intros [= -> _]; by left].
      destruct (find_by_id o db); [|intros [= -> _]; by right; right].
      destruct (validation_failure strip fromisoformat message end_date start_date)
        as [e|] eqn:Hv; [|done].
      apply validation_failure_400 in Hv as [d ->]. intros [= -> _]. by left.
    + rewrite (update_announcement_unauthorized strip _ _ _ _ _ _ _ _ e He).
      intros [= Heq]. right. left. by apply (Hverify e).
  - destruct (verify_cases db username) as [Hu|[e He]].
    + rewrite delete_announcement_eq by done.
      destruct (ObjectId_of_str announcement_id) as [o|];
        [|intros [= -> _]; by left].
      destruct (Mongo.delete_one _ _) as [n c].
      destruct (n =? 0)%nat; [|done]. intros [= -> _]. by right; right.
    + rewrite (delete_announcement_unauthorized _ _ _ _ e He).
      intros [= Heq]. right. left. by apply (Hverify e).
Qed.

(** X5.  The order of the checks.  A requester who fails verification gets
    that failure from every writing endpoint, whatever the identifier and
    the body.  For a verified requester [update_announcement] reports an
    identifier [ObjectId] rejects (400) and one that names no record (404)
    before it looks at the message and the dates. *)
Theorem checks_in_order (utcnow : string) (fresh : ObjectId)
  (announcement_id message end_date username : string)
  (start_date : option string) (db : database) :
  (forall e,
     verify_authenticated_user username db = (Raises e, db) ->
     create_announcement strip fromisoformat utcnow fresh message end_date username
       start_date db = (Raises e, db)
     /\ update_announcement strip fromisoformat ObjectId_of_str announcement_id
          message end_date username start_date db = (Raises e, db)
     /\ delete_announcement ObjectId_of_str announcement_id username db
        = (Raises e, db))
  /\ (authorized db username ->
      ObjectId_of_str announcement_id = None ->
      update_announcement strip fromisoformat ObjectId_of_str announcement_id
        message end_date username start_date db
      = (Raises (HTTPException 400 "Invalid announcement ID"), db))
  /\ (forall o,
        authorized db username ->
        ObjectId_of_str announcement_id = Some o ->
        find_by_id o db = None ->
        update_announcement strip fromisoformat ObjectId_of_str announcement_id
          message end_date username start_date db
        = (Raises (HTTPException 404 "Announcement not found"), db)).
Proof.
  split; [|split].
  - intros e He. split; [|split].
    + by apply create_announcement_unauthorized.
    + by apply update_announcement_unauthorized.
    + by apply delete_announcement_unauthorized.
  - intros Hu Ho. by rewrite update_announcement_eq, Ho.
  - intros o Hu Ho HA. by rewrite update_announcement_eq, Ho, HA.
Qed.

(** X6.  A record that lacks one of the five fields read with
    [announcement[...]] makes a listing that reaches it raise [KeyError] on
    one of those fields, and no partial list is returned.
    [get_active_announcements] returns exactly when every active record is
    listable, so a malformed record that is not active does no harm;
    for an authorized requester [get_all_announcements] returns exactly
    when every stored record is listable. *)
Theorem listing_missing_field (utcnow username : string) (db : database) :
  let active :=
    List.filter (is_active (utcnow ++ "Z")) (announcements_collection db) in
  (Forall listable active ->
   exists items, get_active_announcements utcnow db = (Returns items, db))
  /\ (~ Forall listable active ->
      exists k, k ∈ item_fields
                /\ get_active_announcements utcnow db
                   = (Raises (KeyError k), db))
  /\ (authorized db username ->
      (Forall listable (announcements_collection db) ->
       exists items, get_all_announcements username db = (Returns items, db))
      /\ (~ Forall listable (announcements_collection db) ->
          exists k, k ∈ item_fields
                    /\ get_all_announcements username db
                       = (Raises (KeyError k), db))).
Proof.
  intros active. subst active.
  assert (Hsort : forall l : list document,
            Forall listable (Mongo.sort_desc "created_at" l)
            <-> Forall listable l).
  { intros l. rewrite !Forall_forall.
    split; intros H d Hd; apply H; revert Hd; apply sort_desc_elem_of. }
  rewrite <- find_active_filter.
  split; [|split].
  - intros Hl. unfold get_active_announcements. step.
    destruct (for_each_cases
                (Mongo.sort_desc "created_at"
                   (Mongo.find (active_filter (utcnow ++ "Z"))
                      (announcements_collection db))) db)
      as [(_ & items & Hrun & _)|(Hn & _)]; [eauto|].
    destruct Hn. by apply Hsort.
  - intros Hn. unfold get_active_announcements. step.
    destruct (for_each_cases
                (Mongo.sort_desc "created_at"
                   (Mongo.find (active_filter (utcnow ++ "Z"))
                      (announcements_collection db))) db)
      as [(Hl & _)|(_ & k & Hk & Hrun)]; [|eauto].
    destruct Hn. by apply Hsort.
  - intros [u Hu]. unfold get_all_announcements. step. rewrite Hu.
    rewrite find_all.
    destruct (for_each_cases
                (Mongo.sort_desc "created_at" (announcements_collection db))
                db)
      as [(Hl & items & Hrun & _)|(Hn & k & Hk & Hrun)].
    + split; [eauto|]. intros Hn. destruct Hn. by apply Hsort.
    + split; [|eauto]. intros Hl. destruct Hn. by apply Hsort.
Qed.

(** ** One record at a time *)

Lemma by_id_other (o o' : ObjectId) (d : document) :
  o' <> o -> Mongo.matches (by_id o) d = true ->
  Mongo.matches (by_id o') d = false.
Proof.
  rewrite !matches_by_id. intros Hne Hd%bool_decide_eq_true.
  apply bool_decide_eq_false. congruence.
Qed.

Lemma by_id_same_id (o : ObjectId) (d d' : document) :
  d !! "_id" = d' !! "_id" ->
  Mongo.matches (by_id o) d = Mongo.matches (by_id o) d'.
Proof. intros H. by rewrite !matches_by_id, H. Qed.

Lemma updated_id (message end_date : string) (start_date : option string)
  (A : document) :
  updated strip message end_date start_date A !! "_id" = A !! "_id".
Proof. by rewrite updated_lookup. Qed.

(** The record [create_announcement] stores is found by no other
    identifier than the drawn one. *)
Lemma created_by_id (fresh o : ObjectId) (d : document) :
  Mongo.matches (by_id o) (<["_id" := VObjectId fresh]> d)
  = bool_decide (o = fresh).
Proof.
  rewrite matches_by_id, lookup_insert_eq.
  apply bool_decide_ext. split; congruence.
Qed.

(** X7.  A write concerns one identifier.  Whatever the outcome of the
    call, looking up any identifier other than the one drawn by
    [create_announcement], or other than the one named in an
    [update_announcement] or [delete_announcement] call, finds after the
    call what it found before. *)
Theorem writes_one_identifier (c : call) (db : database) (o : ObjectId) :
  match c with
  | Create _ fresh _ _ _ _ => o <> fresh
  | Update announcement_id _ _ _ _ | Delete announcement_id _ =>
      ObjectId_of_str announcement_id <> Some o
  end ->
  find_by_id o (after c db) = find_by_id o db.
Proof.
  destruct c as [utcnow fresh message end_date user start_date
                |announcement_id message end_date user start_date
                |announcement_id user]; cbn [after]; intros Hne.
  - destruct (create_announcement_cases utcnow fresh message end_date user
                start_date db) as [[e He]|(Hu & Hv & Hfresh)].
    + by rewrite He.
    + rewrite (create_announcement_success strip fromisoformat _ _ _ _ _ _ _
                 Hu Hv Hfresh).
      unfold find_by_id. cbn [snd announcements_collection with_announcements].
      apply find_one_app_l. constructor; [|constructor].
      rewrite created_by_id. by apply bool_decide_eq_false.
  - destruct (update_announcement_cases announcement_id message end_date
                user start_date db) as [[e He]|(o' & A & Hu & Ho & HA & Hv)].
    + by rewrite He.
    + destruct (update_announcement_success strip fromisoformat ObjectId_of_str
                  _ _ _ _ _ _ _ _ Hu Ho HA Hv)
        as (before & after & Hc & _ & Hm & Hok).
      rewrite Hok. unfold find_by_id.
      cbn [snd announcements_collection with_announcements]. rewrite Hc.
      assert (o <> o') by congruence.
      apply find_one_replace.
      * apply (by_id_other o'); [done|].
        by rewrite <- (by_id_same_id o' _ _ (updated_id message end_date
                                               start_date A)).
      * by apply (by_id_other o').
  - destruct (delete_announcement_cases announcement_id user db)
      as [[e He]|(o' & A & before & after & _ & Ho & _ & Hc & _ & Hm & Hok)].
    + by rewrite He.
    + rewrite Hok. unfold find_by_id.
      cbn [snd announcements_collection with_announcements]. rewrite Hc.
      assert (o <> o') by congruence.
      apply find_one_drop. by apply (by_id_other o').
Qed.

(** ** Calls in sequence *)

(** X8.  The identifier [create_announcement] returns names the record it
    stored.  Provided [ObjectId] reads the returned string back as the
    drawn identifier, the store after a successful creation finds the new
    record under that identifier, and deleting that identifier right away
    succeeds and gives back the store as it was before the creation. *)
Theorem create_then_delete (utcnow : string) (fresh : ObjectId)
  (message end_date username : string) (start_date : option string)
  (db : database) :
  authorized db username ->
  validation_failure strip fromisoformat message end_date start_date = None ->
  find_by_id fresh db = None ->
  ObjectId_of_str (ObjectId_str fresh) = Some fresh ->
  exists (A : document) (db' : database),
    create_announcement strip fromisoformat utcnow fresh message end_date username
      start_date db
    = (Returns {[ "id" := VStr (ObjectId_str fresh);
                  "message" := VStr "Announcement created successfully" ]},
       db')
    /\ find_by_id fresh db' = Some A
    /\ A !! "message" = Some (VStr (strip message))
    /\ delete_announcement ObjectId_of_str (ObjectId_str fresh) username db'
       = (Returns {[ "message" := VStr "Announcement deleted successfully" ]},
          db).
Proof.
  intros Hu Hv Hfresh Hparse.
  pose proof (create_announcement_success strip fromisoformat utcnow fresh message
                end_date username start_date db Hu Hv Hfresh) as Hrun.
  cbn zeta in Hrun.
  unfold find_by_id in Hfresh. apply find_one_None in Hfresh.
  eexists _, _. split; [exact Hrun|].
  match goal with
  | |- context [(_ ++ [?d])%list] => set (A := d)
  end.
  assert (Hm : Mongo.matches (by_id fresh) A = true).
  { subst A. rewrite created_by_id. by apply bool_decide_eq_true. }
  split; [|split].
  - apply find_one_Some. exists (announcements_collection db), [].
    by repeat split.
  - subst A. rewrite lookup_insert_ne by done.
    by destruct (Py.truthy_opt start_date).
  - rewrite delete_announcement_eq, Hparse
      by by apply authorized_with_announcements.
    cbn [announcements_collection with_announcements].
    rewrite delete_one_first by done. cbn [Nat.eqb].
    by rewrite app_nil_r, with_announcements_twice, with_announcements_same.
Qed.

(** The dictionary listed for the record [create_announcement] stores. *)
Lemma created_listed_as (utcnow : string) (fresh : ObjectId)
  (message end_date username : string) (start_date : option string) :
  let announcement_data : document :=
    {[ "message" := VStr (strip message);
       "end_date" := VStr end_date;
       "created_by" := VStr username;
       "created_at" := VStr (utcnow ++ "Z") ]} in
  listed_as
    (<["_id" := VObjectId fresh]>
       (if Py.truthy_opt start_date
        then <["start_date" := VStr (default "" start_date)]> announcement_data
        else announcement_data))
    {[ "id" := VStr (ObjectId_str fresh);
       "message" := VStr (strip message);
       "start_date" := (if Py.truthy_opt start_date
                        then VStr (default "" start_date) else VNone);
       "end_date" := VStr end_date;
       "created_by" := VStr username;
       "created_at" := VStr (utcnow ++ "Z") ]}.
Proof.
  intros d db. subst d. unfold announcement_item, get. step.
  by destruct (Py.truthy_opt start_date).
Qed.

Lemma listed_as_functional (d item item' : document) :
  listed_as d item -> listed_as d item' -> item = item'.
Proof.
  intros H H'.
  specialize (H {| announcements_collection := []; teachers_collection := [] |}).
  specialize (H' {| announcements_collection := []; teachers_collection := [] |}).
  congruence.
Qed.

(** X9.  Creation followed by the full listing.  On a store whose records
    are listable, after a successful [create_announcement] the creator's
    [get_all_announcements] returns one item more than there were records,
    among them the item of the new record: the returned identifier, the
    trimmed message, the submitted [end_date], the requester, the creation
    instant, and the submitted [start_date], or null when none (or an
    empty one) was submitted. *)
Theorem create_then_list_all (utcnow : string) (fresh : ObjectId)
  (message end_date username : string) (start_date : option string)
  (db : database) :
  authorized db username ->
  validation_failure strip fromisoformat message end_date start_date = None ->
  find_by_id fresh db = None ->
  Forall listable (announcements_collection db) ->
  let db' :=
    snd (create_announcement strip fromisoformat utcnow fresh message end_date
           username start_date db) in
  exists items,
    get_all_announcements username db' = (Returns items, db')
    /\ length items = S (length (announcements_collection db))
    /\ ({[ "id" := VStr (ObjectId_str fresh);
           "message" := VStr (strip message);
           "start_date" := (if Py.truthy_opt start_date
                            then VStr (default "" start_date) else VNone);
           "end_date" := VStr end_date;
           "created_by" := VStr username;
           "created_at" := VStr (utcnow ++ "Z") ]} : document) ∈ items.
Proof.
  intros Hu Hv Hfresh Hl db'. subst db'.
  rewrite (create_announcement_success strip fromisoformat utcnow fresh message
             end_date username start_date db Hu Hv Hfresh).
  cbn [snd].
  match goal with
  | |- context [(_ ++ [?d])%list] => set (A := d)
  end.
  pose proof (created_listed_as utcnow fresh message end_date username
                start_date) as HA. cbn zeta in HA. fold A in HA.
  set (db' := with_announcements (announcements_collection db ++ [A])%list db).
  assert (Hl' : Forall listable (announcements_collection db')).
  { cbn. apply Forall_app. split; [done|]. constructor; [|constructor].
    destruct (announcement_item_cases A) as [[? _]|(_ & k & _ & Hraise)];
      [done|].
    specialize (HA db). by rewrite Hraise in HA. }
  destruct (get_all_announcements_run username db'
              (authorized_with_announcements _ _ _ Hu) Hl')
    as (items & Hrun & Hitems).
  exists items. split; [exact Hrun|]. split.
  - rewrite <- (Forall2_length _ _ _ Hitems).
    rewrite <- (Permutation_length (sort_desc_perm "created_at" _)).
    cbn. rewrite length_app. simpl. lia.
  - assert (Hin : A ∈ Mongo.sort_desc "created_at"
                        (announcements_collection db')).
    { apply sort_desc_elem_of. cbn. apply elem_of_app. right. left. }
    apply list_elem_of_lookup in Hin as [i Hi].
    destruct (Forall2_lookup_l _ _ _ _ _ Hitems Hi) as (item & Hitem & HAitem).
    rewrite (listed_as_functional A _ item HA HAitem).
    by apply list_elem_of_lookup_2 in Hitem.
Qed.

(** X10.  A valid [update_announcement] call with a non-empty [start_date]
    sets that field on the record, whether it had one or not, replaces
    [message] and [end_date], and leaves every other field of the record
    and every other record as they were. *)
Theorem update_announcement_sets_start_date (announcement_id message end_date
  username s : string) (db : database) (o : ObjectId) (A : document) :
  authorized db username ->
  ObjectId_of_str announcement_id = Some o ->
  find_by_id o db = Some A ->
  s <> "" ->
  validation_failure strip fromisoformat message end_date (Some s) = None ->
  exists (before after : list document) (A' : document) (db' : database),
    update_announcement strip fromisoformat ObjectId_of_str announcement_id message
      end_date username (Some s) db
    = (Returns {[ "message" := VStr "Announcement updated successfully" ]},
       db')
    /\ announcements_collection db = (before ++ A :: after)%list
    /\ announcements_collection db' = (before ++ A' :: after)%list
    /\ find_by_id o db' = Some A'
    /\ A' !! "start_date" = Some (VStr s)
    /\ A' !! "message" = Some (VStr (strip message))
    /\ A' !! "end_date" = Some (VStr end_date)
    /\ (forall k, k ∉ ["message"; "end_date"; "start_date"] ->
                  A' !! k = A !! k).
Proof.
  intros Hu Ho HA Hs Hv.
  destruct (update_announcement_success strip fromisoformat ObjectId_of_str
              announcement_id message end_date username (Some s) db o A
              Hu Ho HA Hv)
    as (before & after & Hc & Hb & Hm & Hrun).
  assert (Ht : Py.truthy_opt (Some s) = true) by by apply truthy_true.
  exists before, after, (updated strip message end_date (Some s) A). eexists.
  split; [exact Hrun|]. split; [exact Hc|]. split; [done|]. split.
  { apply find_one_Some. by exists before, after. }
  split; [by rewrite updated_lookup, Ht|].
  split; [by rewrite updated_lookup|]. split; [by rewrite updated_lookup|].
  intros k Hk. rewrite updated_lookup.
  destruct (String.eqb_spec k "message") as [->|_];
    [exfalso; apply Hk; set_solver|].
  destruct (String.eqb_spec k "end_date") as [->|_];
    [exfalso; apply Hk; set_solver|].
  destruct (String.eqb_spec k "start_date") as [->|_];
    [exfalso; apply Hk; set_solver|].
  done.
Qed.

Lemma updated_twice (message end_date : string) (start_date : option string)
  (A : document) :
  updated strip message end_date start_date
    (updated strip message end_date start_date A)
  = updated strip message end_date start_date A.
Proof.
  apply map_eq. intros k. rewrite !updated_lookup.
  by repeat case_match.
Qed.

(** X11.  [update_announcement] is idempotent: a valid call (authorized
    requester, identifier of a stored record, rules passed) returns, and
    the same call on the store it leaves returns again and leaves that
    store as it is. *)
Theorem update_announcement_idempotent (announcement_id message end_date
  username : string) (start_date : option string) (db : database)
  (o : ObjectId) (A : document) :
  authorized db username ->
  ObjectId_of_str announcement_id = Some o ->
  find_by_id o db = Some A ->
  validation_failure strip fromisoformat message end_date start_date = None ->
  exists db' : database,
    update_announcement strip fromisoformat ObjectId_of_str announcement_id
      message end_date username start_date db
    = (Returns {[ "message" := VStr "Announcement updated successfully" ]},
       db')
    /\ find_by_id o db' = Some (updated strip message end_date start_date A)
    /\ update_announcement strip fromisoformat ObjectId_of_str announcement_id
         message end_date username start_date db'
       = (Returns {[ "message" := VStr "Announcement updated successfully" ]},
          db').
Proof.
  intros Hu Ho HA Hv.
  destruct (update_announcement_success strip fromisoformat ObjectId_of_str
              announcement_id message end_date username start_date db o A
              Hu Ho HA Hv)
    as (before & behind & Hc & Hb & Hm & Hrun1).
  set (A' := updated strip message end_date start_date A) in *.
  set (db' := with_announcements (before ++ A' :: behind)%list db) in *.
  assert (HA' : find_by_id o db' = Some A').
  { apply find_one_Some. by exists before, behind. }
  exists db'. split; [exact Hrun1|]. split; [exact HA'|].
  destruct (update_announcement_success strip fromisoformat ObjectId_of_str
              announcement_id message end_date username start_date db' o A'
              (authorized_with_announcements _ _ _ Hu) Ho HA' Hv)
    as (before' & behind' & Hc' & Hb' & Hm' & Hrun2).
  assert (Hsplit : forall (q : Mongo.query) (b b' a a' : list document)
            (x : document),
            (b ++ x :: a)%list = (b' ++ x :: a')%list ->
            Forall (fun d => Mongo.matches q d = false) b ->
            Forall (fun d => Mongo.matches q d = false) b' ->
            Mongo.matches q x = true -> b = b' /\ a = a').
  { intros q b. induction b as [|y b IH]; intros [|y' b'] a a' x Heq Hf Hf' Hx;
      simpl in Heq.
    - by injection Heq as ->.
    - injection Heq as <- _. apply Forall_cons in Hf' as [Hf' _]. congruence.
    - injection Heq as -> _. apply Forall_cons in Hf as [Hf _]. congruence.
    - injection Heq as <- Heq.
      apply Forall_cons in Hf as [_ Hf]. apply Forall_cons in Hf' as [_ Hf'].
      destruct (IH b' a a' x Heq Hf Hf' Hx) as [-> ->]. done. }
  cbn in Hc'.
  destruct (Hsplit _ _ _ _ _ _ Hc' Hb Hb' Hm) as [<- <-].
  rewrite Hrun2. subst db' A'. by rewrite updated_twice.
Qed.

(** ** Invariants of the announcements collection *)

(** What a request can do to the announcements collection: nothing,
    append the created record, replace the named record by its update, or
    remove the named record. *)
Lemma after_collection (c : call) (db : database) :
  announcements_collection (after c db) = announcements_collection db
  \/ (exists utcnow fresh message end_date username start_date,
        c = Create utcnow fresh message end_date username start_date
        /\ validation_failure strip fromisoformat message end_date start_date = None
        /\ find_by_id fresh db = None
        /\ announcements_collection (after c db)
           = (announcements_collection db
              ++ [<["_id" := VObjectId fresh]>
                    (if Py.truthy_opt start_date
                     then <["start_date" := VStr (default "" start_date)]>
                            ({[ "message" := VStr (strip message);
                                "end_date" := VStr end_date;
                                "created_by" := VStr username;
                                "created_at" := VStr (utcnow ++ "Z") ]}
                             : document)
                     else {[ "message" := VStr (strip message);
                             "end_date" := VStr end_date;
                             "created_by" := VStr username;
                             "created_at" := VStr (utcnow ++ "Z") ]})])%list)
  \/ (exists message end_date start_date A before behind,
        validation_failure strip fromisoformat message end_date start_date = None
        /\ announcements_collection db = (before ++ A :: behind)%list
        /\ announcements_collection (after c db)
           = (before ++ updated strip message end_date start_date A :: behind)%list)
  \/ (exists A before behind,
        announcements_collection db = (before ++ A :: behind)%list
        /\ announcements_collection (after c db) = (before ++ behind)%list).
Proof.
  destruct c as [utcnow fresh message end_date user start_date
                |announcement_id message end_date user start_date
                |announcement_id user]; cbn [after].
  - destruct (create_announcement_cases utcnow fresh message end_date user
                start_date db) as [[e He]|(Hu & Hv & Hfresh)].
    + left. by rewrite He.
    + right. left. exists utcnow, fresh, message, end_date, user, start_date.
      split; [done|]. split; [done|]. split; [done|].
      by rewrite (create_announcement_success strip fromisoformat _ _ _ _ _ _ _
                    Hu Hv Hfresh).
  - destruct (update_announcement_cases announcement_id message end_date
                user start_date db) as [[e He]|(o & A & Hu & Ho & HA & Hv)].
    + left. by rewrite He.
    + destruct (update_announcement_success strip fromisoformat ObjectId_of_str
                  _ _ _ _ _ _ _ _ Hu Ho HA Hv)
        as (before & after & Hc & _ & _ & Hok).
      right. right. left.
      exists message, end_date, start_date, A, before, after.
      split; [done|]. split; [done|]. by rewrite Hok.
  - destruct (delete_announcement_cases announcement_id user db)
      as [[e He]|(o & A & before & after & _ & _ & _ & Hc & _ & _ & Hok)].
    + left. by rewrite He.
    + right. right. right. exists A, before, after.
      split; [done|]. by rewrite Hok.
Qed.

Lemma after_all_cons (c : call) (cs : list call) (db : database) :
  after_all (c :: cs) db = after_all cs (after c db).
Proof. done. Qed.

(** An invariant of single requests is an invariant of sequences. *)
Lemma after_all_invariant (P : list document -> Prop) :
  (forall c db, P (announcements_collection db) ->
                P (announcements_collection (after c db))) ->
  forall cs db, P (announcements_collection db) ->
                P (announcements_collection (after_all cs db)).
Proof.
  intros Hstep cs. induction cs as [|c cs IH]; intros db HP; [done|].
  rewrite after_all_cons. by apply IH, Hstep.
Qed.

(** X12.  [_id] stays a unique key.  If no two stored announcements share
    their [_id], the same holds after any sequence of create, update and
    delete requests, whatever their arguments and outcomes. *)
Theorem unique_ids_kept (cs : list call) (db : database) :
  unique_ids (announcements_collection db) ->
  unique_ids (announcements_collection (after_all cs db)).
Proof.
  apply (after_all_invariant unique_ids). clear cs db. intros c db Hu.
  destruct (after_collection c db)
    as [->|[(utcnow & fresh & message & end_date & user & start_date & _ & _
             & Hfresh & ->)
           |[(message & end_date & start_date & A & before & after & _ & Hc
              & ->)
            |(A & before & after & Hc & ->)]]]; [done| | |].
  - unfold unique_ids in *. rewrite map_app. apply NoDup_app.
    split; [done|]. split; [|apply NoDup_singleton].
    intros x Hx. cbn [map]. rewrite lookup_insert_eq.
    rewrite list_elem_of_singleton. intros ->.
    apply list_elem_of_fmap in Hx as (d & Hd & Hin).
    unfold find_by_id in Hfresh.
    apply find_one_None, Forall_forall with (x := d) in Hfresh; [|done].
    rewrite matches_by_id in Hfresh. by apply bool_decide_eq_false in Hfresh.
  - unfold unique_ids in *. rewrite Hc in Hu.
    rewrite map_app in *. cbn [map] in *. by rewrite updated_id.
  - unfold unique_ids in *. rewrite Hc in Hu.
    rewrite map_app in *. cbn [map] in Hu.
    apply NoDup_app in Hu as (Hb & Hcross & Ha).
    apply NoDup_cons in Ha as [_ Ha].
    apply NoDup_app. split; [done|]. split; [|done].
    intros x Hx Hx'. apply (Hcross x Hx). by right.
Qed.

Lemma validation_passed (message end_date : string)
  (start_date : option string) :
  validation_failure strip fromisoformat message end_date start_date = None ->
  strip message <> "" /\ end_date <> "" /\ parses end_date
  /\ (Py.truthy_opt start_date = true -> parses (default "" start_date)).
Proof.
  unfold validation_failure, parses.
  destruct (String.eqb_spec (strip message) ""); [done|].
  destruct (String.eqb_spec end_date ""); [done|].
  rewrite is_Some_bool.
  destruct (fromisoformat (Py.replace "Z" "+00:00" end_date)); [|done].
  cbn [negb]. intros H.
  split; [done|]. split; [done|]. split; [eauto|].
  destruct start_date as [s|]; [|done].
  cbn [Py.truthy_opt default from_option id]. unfold Py.truthy, id.
  destruct (String.eqb s ""); [done|]. intros _.
  rewrite is_Some_bool in H. cbn [negb andb] in H.
  destruct (fromisoformat (Py.replace "Z" "+00:00" s)); [eauto|done].
Qed.

Lemma well_formed_updated (message end_date : string)
  (start_date : option string) (A : document) :
  validation_failure strip fromisoformat message end_date start_date = None ->
  well_formed A -> well_formed (updated strip message end_date start_date A).
Proof.
  intros (Hm & He & Hpe & Hps)%validation_passed
         (Hid & _ & _ & Hcb & Hca & _).
  unfold well_formed. rewrite !updated_lookup. cbn.
  split; [done|]. split; [eauto|]. split; [eauto|].
  split; [done|]. split; [done|].
  destruct (Py.truthy_opt start_date) eqn:Ht; [|by left].
  right. exists (default "" start_date). split; [done|]. split; [|auto].
  destruct start_date as [s|]; [|done]. by apply truthy_true.
Qed.

(** X13.  The writing endpoints keep the shape of the records.  If every
    stored announcement is well formed (an [ObjectId] as [_id], a non-empty
    [message], a non-empty [end_date] that parses, strings as [created_by]
    and [created_at], and [start_date] absent or a non-empty string that
    parses, never null), so is every stored announcement after any
    sequence of create, update and delete requests. *)
Theorem well_formed_kept (cs : list call) (db : database) :
  Forall well_formed (announcements_collection db) ->
  Forall well_formed (announcements_collection (after_all cs db)).
Proof.
  apply (after_all_invariant (Forall well_formed)). clear cs db.
  intros c db Hw.
  destruct (after_collection c db)
    as [->|[(utcnow & fresh & message & end_date & user & start_date & _ & Hv
             & _ & ->)
           |[(message & end_date & start_date & A & before & after & Hv & Hc
              & ->)
            |(A & before & after & Hc & ->)]]]; [done| | |].
  - apply Forall_app. split; [done|]. constructor; [|constructor].
    apply validation_passed in Hv as (Hm & He & Hpe & Hps).
    unfold well_formed. rewrite lookup_insert_eq.
    split; [eauto|].
    destruct (Py.truthy_opt start_date) eqn:Ht.
    + rewrite !lookup_insert_ne by done. rewrite lookup_insert_eq.
      split; [by exists (strip message)|].
      split; [by exists end_date|]. split; [by exists user|].
      split; [by exists (utcnow ++ "Z")|].
      right. exists (default "" start_date). split; [done|]. split; [|auto].
      destruct start_date as [s|]; [|done]. by apply truthy_true.
    + split; [by exists (strip message)|].
      split; [by exists end_date|]. split; [by exists user|].
      split; [by exists (utcnow ++ "Z")|]. by left.
  - rewrite Hc in Hw. apply Forall_app in Hw as [Hb Ha].
    apply Forall_cons in Ha as [HA Ha].
    apply Forall_app. split; [done|]. constructor; [|done].
    by apply well_formed_updated.
  - rewrite Hc in Hw. apply Forall_app in Hw as [Hb Ha].
    apply Forall_cons in Ha as [_ Ha]. by apply Forall_app.
Qed.

Lemma well_formed_listable (d : document) : well_formed d -> listable d.
Proof.
  intros ([o Hid] & (m & Hm & _) & (e & He & _) & [u Hu] & [t Ht] & _).
  unfold listable. rewrite !Forall_cons, Hid, Hm, He, Hu, Ht. eauto 10.
Qed.

Lemma well_formed_spec_is_active (T : string) (d : document) :
  well_formed d -> is_active T d = spec_is_active T d.
Proof.
  intros (_ & _ & _ & _ & _ & [Hs|(s & Hs & _)]);
    unfold is_active, spec_is_active; by rewrite Hs.
Qed.

(** X14.  On a store of well-formed records, the kind the writing
    endpoints produce and keep, the active listing never fails and returns
    the items of exactly the records that are active in the words of the
    specification: [start_date] absent or at most the current time, and
    [end_date] at least the current time. *)
Theorem well_formed_active_listing (utcnow : string) (db : database) :
  Forall well_formed (announcements_collection db) ->
  exists listed,
    get_active_announcements utcnow db = (Returns (map item_of listed), db)
    /\ forall A,
         A ∈ listed <->
         A ∈ announcements_collection db
         /\ spec_is_active (utcnow ++ "Z") A = true.
Proof.
  intros Hw.
  assert (Hl : Forall listable (announcements_collection db)).
  { eapply Forall_impl; [exact Hw|]. apply well_formed_listable. }
  eexists. split; [by apply get_active_announcements_items|].
  intros A. rewrite sort_desc_elem_of, find_active.
  split; intros [HA Hact]; (split; [done|]);
    rewrite Forall_forall in Hw;
    by rewrite (well_formed_spec_is_active _ A (Hw A HA)) in *.
Qed.

(** ** The visibility window *)

(** X15.  The instants at which the filter of [get_active_announcements]
    selects a record form an interval of the string order: a record
    selected at [T1] and at [T3] is selected at every [T2] between
    them. *)
Theorem active_interval (T1 T2 T3 : string) (d : document) :
  String.leb T1 T2 = true ->
  String.leb T2 T3 = true ->
  Mongo.matches (active_filter T1) d = true ->
  Mongo.matches (active_filter T3) d = true ->
  Mongo.matches (active_filter T2) d = true.
Proof.
  rewrite !matches_active_filter. unfold is_active.
  intros H12 H23 [Hs1 He1]%andb_prop [Hs3 He3]%andb_prop.
  apply andb_true_intro. split.
  - destruct (d !! "start_date") as [[|s|]|]; try done.
    by apply (string_leb_trans s T1 T2).
  - destruct (d !! "end_date") as [[|e|]|]; try done.
    by apply (string_leb_trans T2 T3 e).
Qed.

(** ** The two listings compared *)

(** A document whose key is not below any key of a list goes in front. *)
Lemma insert_desc_front (f : string) (d : document) (l : list document) :
  Forall (fun x => Mongo.leb (Mongo.sort_key f x) (Mongo.sort_key f d) = true)
    l ->
  Mongo.insert_desc f d l = d :: l.
Proof.
  destruct 1 as [|e l He _]; [done|]. cbn [Mongo.insert_desc]. by rewrite He.
Qed.

(** Selecting from a sorted list and inserting commute. *)
Lemma insert_desc_filter (p : document -> bool) (f : string) (d : document)
  (l : list document) :
  StronglySorted
    (fun a b => Mongo.leb (Mongo.sort_key f b) (Mongo.sort_key f a) = true) l ->
  List.filter p (Mongo.insert_desc f d l)
  = if p d then Mongo.insert_desc f d (List.filter p l) else List.filter p l.
Proof.
  induction 1 as [|e l Hl IH He]; cbn [Mongo.insert_desc List.filter].
  - by destruct (p d).
  - destruct (Mongo.leb (Mongo.sort_key f e) (Mongo.sort_key f d)) eqn:Hed.
    + cbn [List.filter]. destruct (p d); [|done].
      symmetry. apply insert_desc_front.
      assert (Hall : Forall
                (fun x => Mongo.leb (Mongo.sort_key f x) (Mongo.sort_key f d)
                          = true) (e :: l)).
      { constructor; [done|]. eapply Forall_impl; [exact He|].
        intros x Hx. by apply (value_leb_trans _ (Mongo.sort_key f e)). }
      apply Forall_forall. intros x Hx.
      rewrite Forall_forall in Hall. apply Hall.
      change (x ∈ List.filter p (e :: l)) in Hx.
      apply list_elem_of_In, filter_In in Hx as [Hx _].
      by apply list_elem_of_In.
    + cbn [List.filter]. rewrite IH.
      destruct (p e), (p d); try done.
      cbn [Mongo.insert_desc]. by rewrite Hed.
Qed.

(** Sorting and selecting commute: the sort is stable. *)
Lemma sort_desc_filter (p : document -> bool) (f : string)
  (l : list document) :
  List.filter p (Mongo.sort_desc f l) = Mongo.sort_desc f (List.filter p l).
Proof.
  induction l as [|d l IH]; [done|]. cbn [Mongo.sort_desc List.filter].
  rewrite insert_desc_filter by apply sort_desc_sorted. rewrite IH.
  by destruct (p d).
Qed.

Lemma filter_sublist (p : document -> bool) (l : list document) :
  sublist (List.filter p l) l.
Proof.
  induction l as [|d l IH]; [constructor|]. cbn [List.filter].
  destruct (p d); by constructor.
Qed.

(** X16.  What the public listing shows is part of the management
    listing.  On a store of listable records and for an authorized
    requester, [get_all_announcements] returns the items of the stored
    records in some order, and [get_active_announcements] returns the items
    of the active ones among them in the same relative order. *)
Theorem active_listing_within_all (utcnow username : string) (db : database) :
  authorized db username ->
  Forall listable (announcements_collection db) ->
  exists listed,
    get_all_announcements username db = (Returns (map item_of listed), db)
    /\ Permutation listed (announcements_collection db)
    /\ get_active_announcements utcnow db
       = (Returns
            (map item_of (List.filter (is_active (utcnow ++ "Z")) listed)),
          db)
    /\ sublist (List.filter (is_active (utcnow ++ "Z")) listed) listed.
Proof.
  intros Hu Hl. eexists.
  split; [by apply get_all_announcements_items|].
  split; [symmetry; apply sort_desc_perm|]. split; [|apply filter_sublist].
  rewrite get_active_announcements_items by done.
  by rewrite find_active_filter, sort_desc_filter.
Qed.

(** The record [create_announcement] stores, as the active filter sees
    it. *)
Lemma created_is_active (T utcnow : string) (fresh : ObjectId)
  (message end_date username : string) (start_date : option string) :
  let announcement_data : document :=
    {[ "message" := VStr (strip message);
       "end_date" := VStr end_date;
       "created_by" := VStr username;
       "created_at" := VStr (utcnow ++ "Z") ]} in
  is_active T
    (<["_id" := VObjectId fresh]>
       (if Py.truthy_opt start_date
        then <["start_date" := VStr (default "" start_date)]> announcement_data
        else announcement_data))
  = (if Py.truthy_opt start_date
     then String.leb (default "" start_date) T else true)
    && String.leb T end_date.
Proof.
  intros d. subst d. unfold is_active.
  by destruct (Py.truthy_opt start_date).
Qed.

(** X17.  An announcement shows up as soon as it is created.  On a store
    of listable records, after a successful [create_announcement] whose
    [end_date] is at least the current time and whose [start_date], when
    one is given, is at most the current time, [get_active_announcements]
    at that time returns the item of the new record. *)
Theorem create_then_list_active (utcnow now : string) (fresh : ObjectId)
  (message end_date username : string) (start_date : option string)
  (db : database) :
  authorized db username ->
  validation_failure strip fromisoformat message end_date start_date = None ->
  find_by_id fresh db = None ->
  Forall listable (announcements_collection db) ->
  String.leb (now ++ "Z") end_date = true ->
  (Py.truthy_opt start_date = true ->
   String.leb (default "" start_date) (now ++ "Z") = true) ->
  let db' :=
    snd (create_announcement strip fromisoformat utcnow fresh message end_date
           username start_date db) in
  exists items,
    get_active_announcements now db' = (Returns items, db')
    /\ ({[ "id" := VStr (ObjectId_str fresh);
           "message" := VStr (strip message);
           "start_date" := (if Py.truthy_opt start_date
                            then VStr (default "" start_date) else VNone);
           "end_date" := VStr end_date;
           "created_by" := VStr username;
           "created_at" := VStr (utcnow ++ "Z") ]} : document) ∈ items.
Proof.
  intros Hu Hv Hfresh Hl Hend Hstart db'. subst db'.
  rewrite (create_announcement_success strip fromisoformat utcnow fresh message
             end_date username start_date db Hu Hv Hfresh).
  cbn [snd].
  pose proof (created_listed_as utcnow fresh message end_date username
                start_date) as HA.
  pose proof (created_is_active (now ++ "Z") utcnow fresh message end_date
                username start_date) as Hact.
  cbn zeta in HA, Hact.
  match goal with
  | |- context [(_ ++ [?d])%list] => set (A := d) in *
  end.
  set (db' := with_announcements (announcements_collection db ++ [A])%list db).
  assert (Hl' : Forall listable (announcements_collection db')).
  { cbn. apply Forall_app. split; [done|]. constructor; [|constructor].
    destruct (announcement_item_cases A) as [[? _]|(_ & k & _ & Hraise)];
      [done|].
    specialize (HA db). by rewrite Hraise in HA. }
  destruct (get_active_announcements_run now db' Hl')
    as (items & Hrun & Hitems).
  exists items. split; [exact Hrun|].
  assert (Hin : A ∈ Mongo.sort_desc "created_at"
                      (Mongo.find (active_filter (now ++ "Z"))
                         (announcements_collection db'))).
  { apply sort_desc_elem_of, find_active. split.
    - cbn. apply elem_of_app. right. left.
    - rewrite Hact, Hend, andb_true_r.
      destruct (Py.truthy_opt start_date); [by apply Hstart | done]. }
  apply list_elem_of_lookup in Hin as [i Hi].
  destruct (Forall2_lookup_l _ _ _ _ _ Hitems Hi) as (item & Hitem & HAitem).
  rewrite (listed_as_functional A _ item HA HAitem).
  by apply list_elem_of_lookup_2 in Hitem.
Qed.

(** X18.  The endpoints check each date on its own and never compare the
    two.  A [create_announcement] call whose [start_date] is after its
    [end_date] succeeds like any other valid call, and the record it
    stores is selected by the active filter at no instant. *)
Theorem start_after_end_never_active (utcnow : string) (fresh : ObjectId)
  (message end_date username s : string) (db : database) :
  authorized db username ->
  validation_failure strip fromisoformat message end_date (Some s) = None ->
  find_by_id fresh db = None ->
  String.ltb end_date s = true ->
  exists (A : document) (db' : database),
    create_announcement strip fromisoformat utcnow fresh message end_date username
      (Some s) db
    = (Returns {[ "id" := VStr (ObjectId_str fresh);
                  "message" := VStr "Announcement created successfully" ]},
       db')
    /\ find_by_id fresh db' = Some A
    /\ A !! "start_date" = Some (VStr s)
    /\ A !! "end_date" = Some (VStr end_date)
    /\ forall T, Mongo.matches (active_filter T) A = false.
Proof.
  intros Hu Hv Hfresh Hlt.
  assert (Hs : Py.truthy_opt (Some s) = true).
  { apply truthy_true. intros ->. by destruct end_date. }
  pose proof (create_announcement_success strip fromisoformat utcnow fresh message
                end_date username (Some s) db Hu Hv Hfresh) as Hrun.
  pose proof (fun T => created_is_active T utcnow fresh message end_date
                         username (Some s)) as Hact.
  cbn zeta in Hrun, Hact. rewrite Hs in Hrun, Hact.
  cbn [default from_option id] in Hrun, Hact. unfold id in *.
  unfold find_by_id in Hfresh. apply find_one_None in Hfresh.
  eexists _, _. split; [exact Hrun|].
  split; [|split; [|split]].
  - apply find_one_Some. exists (announcements_collection db), [].
    split; [done|]. split; [|done].
    rewrite created_by_id. by apply bool_decide_eq_true.
  - reflexivity.
  - reflexivity.
  - intros T. rewrite matches_active_filter, Hact.
    apply not_true_is_false. intros [H1 H2]%andb_prop.
    pose proof (string_leb_trans _ _ _ H1 H2) as Hle.
    apply string_leb_not_gt in Hle. congruence.
Qed.

Lemma filter_all (p : document -> bool) (l : list document) :
  Forall (fun d => p d = true) l -> List.filter p l = l.
Proof.
  induction 1 as [|d l Hd _ IH]; [done|]. cbn [List.filter].
  by rewrite Hd, IH.
Qed.

(** X19.  Deletion followed by the full listing.  On a store of listable
    records with unique identifiers, after a successful
    [delete_announcement] the requester's [get_all_announcements] returns
    the items of the records listed before, in the same relative order,
    with the deleted record left out and no other. *)
Theorem delete_then_list_all (announcement_id username : string)
  (db : database) (o : ObjectId) (A : document) :
  authorized db username ->
  ObjectId_of_str announcement_id = Some o ->
  find_by_id o db = Some A ->
  unique_ids (announcements_collection db) ->
  Forall listable (announcements_collection db) ->
  exists (listed listed' : list document) (db' : database),
    get_all_announcements username db = (Returns (map item_of listed), db)
    /\ delete_announcement ObjectId_of_str announcement_id username db
       = (Returns {[ "message" := VStr "Announcement deleted successfully" ]},
          db')
    /\ get_all_announcements username db'
       = (Returns (map item_of listed'), db')
    /\ sublist listed' listed
    /\ Permutation listed (A :: listed').
Proof.
  intros Hu Ho HA Huniq Hl.
  destruct (delete_announcement_success announcement_id username db o A
              Hu Ho HA) as (before & behind & Hc & Hb & Hm & Hrun).
  set (db' := with_announcements (before ++ behind)%list db) in *.
  assert (Hrest : Forall (fun d => Mongo.matches (by_id o) d = false)
                    (before ++ behind)%list).
  { rewrite Hc in Huniq. by eapply unique_ids_after. }
  assert (Hl' : Forall listable (announcements_collection db')).
  { cbn. rewrite Hc in Hl. apply Forall_app in Hl as [? [_ ?]%Forall_cons].
    by apply Forall_app. }
  set (p := fun d => negb (Mongo.matches (by_id o) d)).
  assert (Hsel : List.filter p (announcements_collection db)
                 = announcements_collection db').
  { cbn. rewrite Hc, !List.filter_app. cbn [List.filter]. unfold p at 2.
    rewrite Hm. cbn [negb]. rewrite <- List.filter_app.
    apply filter_all. eapply Forall_impl; [exact Hrest|].
    intros d Hd. unfold p. by rewrite Hd. }
  exists (Mongo.sort_desc "created_at" (announcements_collection db)),
    (Mongo.sort_desc "created_at" (announcements_collection db')), db'.
  split; [by apply get_all_announcements_items|]. split; [exact Hrun|].
  split.
  { apply get_all_announcements_items; [|done].
    by apply authorized_with_announcements. }
  split.
  - rewrite <- Hsel, <- sort_desc_filter. apply filter_sublist.
  - rewrite <- !sort_desc_perm. cbn. rewrite Hc.
    symmetry. apply Permutation_middle.
Qed.

End Further.

(** * Examples for the further properties *)

(** A store as the router leaves it: no null [start_date]. *)
Definition written_db : database := {|
  announcements_collection := [Example.new; Example.gone];
  teachers_collection := [Example.alice]
|}.

(** A store with an expired record that lacks its [message]. *)
Definition broken_db : database := {|
  announcements_collection :=
    [Example.new; delete "message" Example.gone];
  teachers_collection := [Example.alice]
|}.

Lemma written_well_formed :
  Forall (well_formed Lib.fromisoformat) (announcements_collection written_db).
Proof.
  assert (Hp : forall s d,
            Lib.fromisoformat (Py.replace "Z" "+00:00" s) = Some d ->
            parses Lib.fromisoformat s) by (intros s d H; by exists d).
  constructor; [|constructor; [|constructor]].
  - split; [eexists; reflexivity|].
    split; [eexists; split; [reflexivity|done]|].
    split; [eexists; split; [reflexivity|split; [done|]]|].
    { eapply Hp. reflexivity. }
    split; [eexists; reflexivity|]. split; [eexists; reflexivity|].
    right. eexists. split; [reflexivity|]. split; [done|].
    eapply Hp. reflexivity.
  - split; [eexists; reflexivity|].
    split; [eexists; split; [reflexivity|done]|].
    split; [eexists; split; [reflexivity|split; [done|]]|].
    { eapply Hp. reflexivity. }
    split; [eexists; reflexivity|]. split; [eexists; reflexivity|].
    left. reflexivity.
Defined.


(** Alice is still authorized after she created an announcement. *)
Lemma teachers_never_written_example :
  authorized
    (after Py.strip Lib.fromisoformat Lib.ObjectId_of_str
       (Create Example.utcnow (Oid 77) "Exam" "2099-01-01T00:00:00Z" "alice"
          None)
       Example.db)
    "alice".
Proof.
  apply (proj2 (teachers_never_written Py.strip Lib.fromisoformat Lib.ObjectId_of_str
                  (Create Example.utcnow (Oid 77) "Exam"
                     "2099-01-01T00:00:00Z" "alice" None)
                  Example.db "alice")).
  exact example_authorized.
Defined.

(** Bob is unknown: his delete request with a malformed identifier is
    answered 401, not 400. *)
Lemma checks_in_order_example :
  verify_authenticated_user "bob" Example.db
  = (Raises (HTTPException 401 "Invalid user"), Example.db)
  /\ Lib.ObjectId_of_str "not-an-id" = None
  /\ delete_announcement Lib.ObjectId_of_str "not-an-id" "bob" Example.db
     = (Raises (HTTPException 401 "Invalid user"), Example.db).
Proof.
  split; [vm_compute; reflexivity|]. split; [reflexivity|].
  apply (proj1 (checks_in_order Py.strip Lib.fromisoformat Lib.ObjectId_of_str
                  Example.utcnow (Oid 77) "not-an-id" "" "" "bob" None
                  Example.db)
           (HTTPException 401 "Invalid user")).
  vm_compute. reflexivity.
Defined.

(** The expired record without [message] does not disturb the active
    listing and breaks the full one. *)
Lemma listing_missing_field_example :
  (exists items,
     get_active_announcements Example.utcnow broken_db
     = (Returns items, broken_db))
  /\ exists k,
       k ∈ item_fields
       /\ get_all_announcements "alice" broken_db
          = (Raises (KeyError k), broken_db).
Proof.
  split.
  - apply (proj1 (listing_missing_field Example.utcnow "alice" broken_db)).
    vm_compute. repeat constructor; eauto.
  - apply (proj2 (proj2 (listing_missing_field Example.utcnow "alice"
                           broken_db))).
    + eexists. vm_compute. reflexivity.
    + intros H. apply Forall_cons in H as [_ H].
      apply Forall_cons in H as [H _].
      apply Forall_cons in H as [_ H]. apply Forall_cons in H as [[v H] _].
      vm_compute in H. discriminate H.
Defined.

(** Deleting the second announcement leaves the first one in place. *)
Lemma writes_one_identifier_example :
  Lib.ObjectId_of_str "000000000000000000000002" <> Some (Oid 1)
  /\ find_by_id (Oid 1)
       (after Py.strip Lib.fromisoformat Lib.ObjectId_of_str
          (Delete "000000000000000000000002" "alice") Example.db)
     = Some Example.old.
Proof.
  assert (H : Lib.ObjectId_of_str "000000000000000000000002" <> Some (Oid 1))
    by (vm_compute; discriminate).
  split; [exact H|].
  rewrite (writes_one_identifier Py.strip Lib.fromisoformat Lib.ObjectId_of_str
             (Delete "000000000000000000000002" "alice") Example.db (Oid 1) H).
  reflexivity.
Defined.

(** Creating and deleting right away gives the example store back. *)
Lemma create_then_delete_example :
  Lib.ObjectId_of_str (ObjectId_str (Oid 77)) = Some (Oid 77)
  /\ exists db' : database,
       create_announcement Py.strip Lib.fromisoformat Example.utcnow (Oid 77)
         " Exam tomorrow " "2099-01-01T00:00:00Z" "alice" None Example.db
       = (Returns {[ "id" := VStr "00000000000000000000004d";
                     "message" := VStr "Announcement created successfully" ]},
          db')
       /\ delete_announcement Lib.ObjectId_of_str "00000000000000000000004d"
            "alice" db'
          = (Returns {[ "message" :=
                          VStr "Announcement deleted successfully" ]},
             Example.db).
Proof.
  split; [reflexivity|].
  destruct (create_then_delete Py.strip Lib.fromisoformat Lib.ObjectId_of_str
              Example.utcnow (Oid 77) " Exam tomorrow " "2099-01-01T00:00:00Z"
              "alice" None Example.db example_authorized eq_refl eq_refl
              eq_refl)
    as (A & db' & Hcreate & _ & _ & Hdelete).
  exists db'. split; [exact Hcreate | exact Hdelete].
Defined.

(** The scenario of the specification, listed. *)
Lemma create_then_list_all_example :
  exists items,
    get_all_announcements "alice"
      (snd (create_announcement Py.strip Lib.fromisoformat Example.utcnow (Oid 77)
              " Exam tomorrow " "2099-01-01T00:00:00Z" "alice" None
              Example.db))
    = (Returns items,
       snd (create_announcement Py.strip Lib.fromisoformat Example.utcnow (Oid 77)
              " Exam tomorrow " "2099-01-01T00:00:00Z" "alice" None
              Example.db))
    /\ length items = 4%nat
    /\ ({[ "id" := VStr "00000000000000000000004d";
           "message" := VStr "Exam tomorrow";
           "start_date" := VNone;
           "end_date" := VStr "2099-01-01T00:00:00Z";
           "created_by" := VStr "alice";
           "created_at" := VStr "2026-11-04T10:00:00.123456Z" ]} : document)
        ∈ items.
Proof.
  exact (create_then_list_all Py.strip Lib.fromisoformat Example.utcnow (Oid 77)
           " Exam tomorrow " "2099-01-01T00:00:00Z" "alice" None Example.db
           example_authorized eq_refl eq_refl example_listable).
Defined.

(** The first example announcement, whose [start_date] is null, gets one. *)
Lemma update_announcement_sets_start_date_example :
  find_by_id (Oid 1) Example.db = Some Example.old
  /\ Example.old !! "start_date" = Some VNone
  /\ exists (A' : document) (db' : database),
       update_announcement Py.strip Lib.fromisoformat Lib.ObjectId_of_str
         "000000000000000000000001" "Old" "2099-01-01T00:00:00Z" "alice"
         (Some "2026-01-01T00:00:00Z") Example.db
       = (Returns {[ "message" := VStr "Announcement updated successfully" ]},
          db')
       /\ find_by_id (Oid 1) db' = Some A'
       /\ A' !! "start_date" = Some (VStr "2026-01-01T00:00:00Z")
       /\ A' !! "created_at" = Example.old !! "created_at".
Proof.
  split; [reflexivity|]. split; [reflexivity|].
  destruct (update_announcement_sets_start_date Py.strip Lib.fromisoformat
              Lib.ObjectId_of_str "000000000000000000000001" "Old"
              "2099-01-01T00:00:00Z" "alice" "2026-01-01T00:00:00Z"
              Example.db (Oid 1) Example.old example_authorized eq_refl
              eq_refl ltac:(discriminate) eq_refl)
    as (before & behind & A' & db' & Hrun & _ & _ & Hfind & Hstart & _ & _
        & Hframe).
  exists A', db'. split; [exact Hrun|]. split; [exact Hfind|].
  split; [exact Hstart|]. apply Hframe.
  rewrite !elem_of_cons, elem_of_nil. intros [H|[H|[H|H]]]; try discriminate H.
  exact H.
Defined.

(** The same update, twice. *)
Lemma update_announcement_idempotent_example :
  exists db1 : database,
    update_announcement Py.strip Lib.fromisoformat Lib.ObjectId_of_str
      "000000000000000000000002" " Exam " "2099-06-01T00:00:00Z" "alice" None
      Example.db
    = (Returns {[ "message" := VStr "Announcement updated successfully" ]},
       db1)
    /\ update_announcement Py.strip Lib.fromisoformat Lib.ObjectId_of_str
         "000000000000000000000002" " Exam " "2099-06-01T00:00:00Z" "alice"
         None db1
       = (Returns {[ "message" := VStr "Announcement updated successfully" ]},
          db1).
Proof.
  destruct (update_announcement_idempotent Py.strip Lib.fromisoformat
              Lib.ObjectId_of_str "000000000000000000000002" " Exam "
              "2099-06-01T00:00:00Z" "alice" None Example.db (Oid 2)
              Example.new example_authorized eq_refl eq_refl eq_refl)
    as (db1 & Hfirst & _ & Hsecond).
  exists db1. split; [exact Hfirst | exact Hsecond].
Defined.

(** Three requests against the example store. *)
Definition requests : list call :=
  [ Create Example.utcnow (Oid 77) " Exam tomorrow " "2099-01-01T00:00:00Z"
      "alice" None;
    Update "000000000000000000000002" " Exam " "2099-06-01T00:00:00Z" "alice"
      (Some "2026-01-01T00:00:00Z");
    Delete "000000000000000000000003" "alice" ].

Lemma unique_ids_kept_example :
  unique_ids (announcements_collection Example.db)
  /\ unique_ids
       (announcements_collection
          (after_all Py.strip Lib.fromisoformat Lib.ObjectId_of_str requests
             Example.db))
  /\ length (announcements_collection
               (after_all Py.strip Lib.fromisoformat Lib.ObjectId_of_str requests
                  Example.db)) = 3%nat.
Proof.
  split; [exact example_unique_ids|]. split; [|reflexivity].
  exact (unique_ids_kept Py.strip Lib.fromisoformat Lib.ObjectId_of_str requests
           Example.db example_unique_ids).
Defined.

Lemma well_formed_kept_example :
  Forall (well_formed Lib.fromisoformat) (announcements_collection written_db)
  /\ Forall (well_formed Lib.fromisoformat)
       (announcements_collection
          (after_all Py.strip Lib.fromisoformat Lib.ObjectId_of_str requests
             written_db)).
Proof.
  split; [exact written_well_formed|].
  exact (well_formed_kept Py.strip Lib.fromisoformat Lib.ObjectId_of_str requests
           written_db written_well_formed).
Defined.

Lemma well_formed_active_listing_example :
  exists listed,
    get_active_announcements Example.utcnow written_db
    = (Returns (map item_of listed), written_db)
    /\ Example.new ∈ listed /\ Example.gone ∉ listed.
Proof.
  destruct (well_formed_active_listing Lib.fromisoformat Example.utcnow
              written_db written_well_formed)
    as (listed & Hrun & Hin).
  exists listed. split; [exact Hrun|]. split.
  - apply Hin. split; [|reflexivity]. vm_compute. left.
  - intros [_ H]%Hin. discriminate H.
Defined.

(** The second example announcement is selected in 2021 and in 2098, hence
    now. *)
Lemma active_interval_example :
  Mongo.matches (active_filter "2026-11-04T10:00:00.123456Z") Example.new
  = true.
Proof.
  apply (active_interval "2021-01-01T00:00:00Z" "2026-11-04T10:00:00.123456Z"
           "2098-01-01T00:00:00Z" Example.new); reflexivity.
Defined.

Lemma active_listing_within_all_example :
  exists listed,
    get_all_announcements "alice" Example.db
    = (Returns (map item_of listed), Example.db)
    /\ Permutation listed (announcements_collection Example.db)
    /\ get_active_announcements Example.utcnow Example.db
       = (Returns
            (map item_of
               (List.filter (is_active (Example.utcnow ++ "Z")) listed)),
          Example.db)
    /\ sublist (List.filter (is_active (Example.utcnow ++ "Z")) listed) listed.
Proof.
  exact (active_listing_within_all Example.utcnow "alice" Example.db
           example_authorized example_listable).
Defined.

(** The scenario of the specification, listed for the public. *)
Lemma create_then_list_active_example :
  exists items,
    get_active_announcements Example.utcnow
      (snd (create_announcement Py.strip Lib.fromisoformat Example.utcnow (Oid 77)
              " Exam tomorrow " "2099-01-01T00:00:00Z" "alice" None
              Example.db))
    = (Returns items,
       snd (create_announcement Py.strip Lib.fromisoformat Example.utcnow (Oid 77)
              " Exam tomorrow " "2099-01-01T00:00:00Z" "alice" None
              Example.db))
    /\ ({[ "id" := VStr "00000000000000000000004d";
           "message" := VStr "Exam tomorrow";
           "start_date" := VNone;
           "end_date" := VStr "2099-01-01T00:00:00Z";
           "created_by" := VStr "alice";
           "created_at" := VStr "2026-11-04T10:00:00.123456Z" ]} : document)
        ∈ items.
Proof.
  apply (create_then_list_active Py.strip Lib.fromisoformat Example.utcnow
           Example.utcnow (Oid 77) " Exam tomorrow " "2099-01-01T00:00:00Z"
           "alice" None Example.db example_authorized eq_refl eq_refl
           example_listable eq_refl).
  discriminate.
Defined.

(** An announcement that starts after it ends. *)
Lemma start_after_end_never_active_example :
  String.ltb "2099-01-01T00:00:00Z" "2099-06-01T00:00:00Z" = true
  /\ exists (A : document) (db' : database),
       create_announcement Py.strip Lib.fromisoformat Example.utcnow (Oid 77) "Exam"
         "2099-01-01T00:00:00Z" "alice" (Some "2099-06-01T00:00:00Z")
         Example.db
       = (Returns {[ "id" := VStr "00000000000000000000004d";
                     "message" := VStr "Announcement created successfully" ]},
          db')
       /\ find_by_id (Oid 77) db' = Some A
       /\ forall T, Mongo.matches (active_filter T) A = false.
Proof.
  split; [reflexivity|].
  destruct (start_after_end_never_active Py.strip Lib.fromisoformat Example.utcnow
              (Oid 77) "Exam" "2099-01-01T00:00:00Z" "alice"
              "2099-06-01T00:00:00Z" Example.db example_authorized eq_refl
              eq_refl eq_refl)
    as (A & db' & Hrun & Hfind & _ & _ & Hnever).
  exists A, db'. split; [exact Hrun|]. split; [exact Hfind | exact Hnever].
Defined.

Lemma delete_then_list_all_example :
  exists (listed listed' : list document) (db' : database),
    get_all_announcements "alice" Example.db
    = (Returns (map item_of listed), Example.db)
    /\ delete_announcement Lib.ObjectId_of_str "000000000000000000000002"
         "alice" Example.db
       = (Returns {[ "message" := VStr "Announcement deleted successfully" ]},
          db')
    /\ get_all_announcements "alice" db'
       = (Returns (map item_of listed'), db')
    /\ sublist listed' listed
    /\ Permutation listed (Example.new :: listed').
Proof.
  exact (delete_then_list_all Lib.ObjectId_of_str "000000000000000000000002"
           "alice" Example.db (Oid 2) Example.new example_authorized eq_refl
           eq_refl example_unique_ids example_listable).
Defined.
